(** * mango: the envelope-budget ledger of the [App] component

    A shallow embedding of the ledger handlers of the [App] component of
    [src/vite.config.ts] (setup, add/delete/reorder envelope, expense,
    top-up, transfer, finalize/unlock, edit total, copy plan) together with
    the data model of [src/types.ts] and the default year of
    [src/services/storage.ts], and the properties of the specification
    checked against them.

    Conventions of the embedding:
    - a React handler reads the state captured by its closure and ends in
      at most one [updateMonth]/[setYearData]; it is a function from the
      captured state to [option] of the replaced value, [None] standing for
      an early [return];
    - [Math.random().toString(36).substr(2, 9)] is the [k]-th draw of a
      stream of identifiers handed to the handler, [new Date()] is the
      string [today], [window.confirm] is a boolean answer;
    - a JS [number] is [number] below: NaN, the two infinities, or a finite
      value kept as an exact rational; binary64 rounding is not part of the
      model. *)

From Stdlib Require Import QArith Qcanon ZArith String Ascii List Permutation.
From Stdlib Require Import DecimalString DecimalZ DecimalPos.
From stdpp Require Import base option list strings numbers gmap.
Import ListNotations.

Local Open Scope string_scope.
Local Open Scope list_scope.
Local Open Scope Z_scope.

(** ** JS numbers *)

Inductive number :=
  | NaN
  | PosInf
  | NegInf
  | Fin (q : Qc).

Definition zero : number := Fin (Q2Qc 0).

Definition ofZ (z : Z) : number := Fin (Q2Qc (inject_Z z)).

(** [x + y] *)
Definition nadd (x y : number) : number :=
  match x, y with
  | NaN, _ | _, NaN => NaN
  | PosInf, NegInf | NegInf, PosInf => NaN
  | PosInf, _ | _, PosInf => PosInf
  | NegInf, _ | _, NegInf => NegInf
  | Fin a, Fin b => Fin (a + b)%Qc
  end.

(** [-x] *)
Definition nneg (x : number) : number :=
  match x with
  | NaN => NaN
  | PosInf => NegInf
  | NegInf => PosInf
  | Fin a => Fin (- a)%Qc
  end.

(** [x - y] *)
Definition nsub (x y : number) : number := nadd x (nneg y).

(** [x > y]: false as soon as one side is NaN. *)
Definition ngt (x y : number) : bool :=
  match x, y with
  | NaN, _ | _, NaN => false
  | PosInf, PosInf => false
  | PosInf, _ => true
  | _, PosInf => false
  | NegInf, _ => false
  | Fin _, NegInf => true
  | Fin a, Fin b => match (a ?= b)%Qc with Gt => true | _ => false end
  end.

(** [x <= y]: false as soon as one side is NaN. *)
Definition nle (x y : number) : bool :=
  match x, y with
  | NaN, _ | _, NaN => false
  | NegInf, _ => true
  | _, PosInf => true
  | PosInf, _ => false
  | Fin _, NegInf => false
  | Fin a, Fin b => match (a ?= b)%Qc with Gt => false | _ => true end
  end.

(** ToBoolean on a number: NaN and zero are falsy. *)
Definition truthy (x : number) : bool :=
  match x with
  | NaN => false
  | PosInf | NegInf => true
  | Fin a => match (a ?= Q2Qc 0)%Qc with Eq => false | _ => true end
  end.

(** [x || d] on numbers. *)
Definition norElse (x d : number) : number := if truthy x then x else d.

Definition isFinite (x : number) : bool :=
  match x with Fin _ => true | _ => false end.

(** ** JS strings *)

(** ASCII white space and line terminators (TAB, LF, VT, FF, CR, SP); the
    non-ASCII white space of ECMAScript is outside a byte string. *)
Definition isWhiteSpace (c : ascii) : bool :=
  let n := nat_of_ascii c in
  ((9 <=? n)%nat && (n <=? 13)%nat) || (n =? 32)%nat.

Fixpoint trimStart (s : string) : string :=
  match s with
  | String c r => if isWhiteSpace c then trimStart r else s
  | EmptyString => EmptyString
  end.

Fixpoint trimEnd (s : string) : string :=
  match s with
  | String c r =>
      match trimEnd r with
      | EmptyString => if isWhiteSpace c then EmptyString else String c EmptyString
      | r' => String c r'
      end
  | EmptyString => EmptyString
  end.

(** [s.trim()] *)
Definition trim (s : string) : string := trimEnd (trimStart s).

(** [!s] on a string. *)
Definition isEmpty (s : string) : bool := String.eqb s "".

(** [s || d] on strings. *)
Definition sorElse (s d : string) : string := if isEmpty s then d else s.

(** *** [parseFloat]

    The longest prefix of the input, after leading white space, that is a
    StrDecimalLiteral: an optional sign, then [Infinity] or decimal digits
    with an optional fraction and an optional exponent. *)

Definition digitOf (c : ascii) : option Z :=
  let n := nat_of_ascii c in
  if ((48 <=? n)%nat && (n <=? 57)%nat) then Some (Z.of_nat n - 48) else None.

(** Reads decimal digits: the value read so far, how many, the rest. *)
Fixpoint readDigits (s : string) (acc : Z) (count : nat) : Z * nat * string :=
  match s with
  | String c r =>
      match digitOf c with
      | Some d => readDigits r (10 * acc + d) (S count)
      | None => (acc, count, s)
      end
  | EmptyString => (acc, count, s)
  end.

Definition readSign (s : string) : bool * string :=
  match s with
  | String "-" r => (true, r)
  | String "+" r => (false, r)
  | _ => (false, s)
  end.

(** The exponent part; absent or incomplete, it is not consumed. *)
Definition readExponent (s : string) : Z :=
  match s with
  | String c r =>
      if (Ascii.eqb c "e" || Ascii.eqb c "E")%bool then
        let '(neg, r1) := readSign r in
        let '(e, n, _) := readDigits r1 0 0 in
        if (n =? 0)%nat then 0 else if neg then - e else e
      else 0
  | EmptyString => 0
  end.

(** [m * 10 ^ e] as an exact rational. *)
Definition scale10 (m e : Z) : Qc :=
  if 0 <=? e then Q2Qc (inject_Z (m * 10 ^ e))
  else Q2Qc (Qred (Qmake m (Z.to_pos (10 ^ (- e))))).

Definition parseFloat (s : string) : number :=
  let '(neg, s1) := readSign (trimStart s) in
  if String.prefix "Infinity" s1 then (if neg then NegInf else PosInf) else
  let '(ip, ni, s2) := readDigits s1 0 0 in
  let '(m, nf, s3) :=
    match s2 with
    | String "." r => let '(m, nd, r') := readDigits r ip 0 in (m, nd, r')
    | _ => (ip, 0%nat, s2)
    end in
  if ((ni =? 0)%nat && (nf =? 0)%nat)%bool then NaN else
  let e := readExponent s3 in
  Fin (scale10 (if neg then - m else m) (e - Z.of_nat nf)).

(** Plain decimal notation of a number: the form [Number::toString] gives
    for the magnitudes a budget holds (integers below 1e21, fractions not
    below 1e-6), with at most [20] fractional digits. *)
Fixpoint fractionDigits (fuel : nat) (r d : Z) : string :=
  match fuel with
  | O => ""
  | S fuel' =>
      if r =? 0 then ""
      else String (ascii_of_nat (48 + Z.to_nat (10 * r / d)))
                  (fractionDigits fuel' ((10 * r) mod d) d)
  end.

Definition decimalToString (q : Qc) : string :=
  let n := Z.abs (Qnum (this q)) in
  let d := Zpos (Qden (this q)) in
  let ip := DecimalString.NilZero.string_of_uint (N.to_uint (Z.to_N (n / d))) in
  let fp := fractionDigits 20 (n mod d) d in
  ((if (Qnum (this q) <? 0)%Z then "-" else "") ++ ip ++
   (if isEmpty fp then "" else "." ++ fp))%string.

Definition plainToString (x : number) : string :=
  match x with
  | NaN => "NaN"
  | PosInf => "Infinity"
  | NegInf => "-Infinity"
  | Fin q => decimalToString q
  end.

(** ** The data model of [types.ts] *)

Inductive MonthStatus := NOT_STARTED | ACTIVE | COMPLETED.

Inductive TransactionType := EXPENSE | TRANSFER_IN | TRANSFER_OUT.

Module Transaction.
Record t := mk {
  id : string;
  date : string;
  description : string;
  amount : number;
  type : TransactionType;
  fromCategory : option string;
  toCategory : option string
}.
End Transaction.

Module Category.
Record t := mk {
  id : string;
  name : string;
  icon : string;
  allocatedAmount : number;
  transactions : list Transaction.t
}.
End Category.

Module MonthBudget.
Record t := mk {
  monthIndex : Z;
  year : Z;
  status : MonthStatus;
  totalBudget : number;
  note : option string;
  categories : list Category.t
}.
End MonthBudget.

Module BudgetYear.
Record t := mk {
  year : Z;
  months : list MonthBudget.t
}.
End BudgetYear.

(** *** Form buffers of the component *)

(** An entry of [setupCategories]. *)
Module SetupEntry.
Record t := mk { name : string; amount : string }.
End SetupEntry.

Module ExpenseForm.
Record t := mk { amount : string; note : string; date : string }.
End ExpenseForm.

Module TransferForm.
Record t := mk { amount : string; fromCategoryId : string; note : string }.
End TransferForm.

Module TopUpForm.
Record t := mk { amount : string; note : string }.
End TopUpForm.

Inductive Direction := UP | DOWN.

(** What a handler draws from its surroundings while it runs: the
    successive results of [Math.random().toString(36).substr(2, 9)] and
    [new Date().toISOString().split('T')[0]]. *)
Record Env := mkEnv {
  randomId : nat -> string;
  today : string
}.

(** *** Object spread with overridden fields *)

Definition withTransaction (c : Category.t) (t : Transaction.t) : Category.t :=
  Category.mk (Category.id c) (Category.name c) (Category.icon c)
    (Category.allocatedAmount c) (Category.transactions c ++ [t]).

Definition withAllocation (c : Category.t) (a : number) (t : Transaction.t)
  : Category.t :=
  Category.mk (Category.id c) (Category.name c) (Category.icon c)
    a (Category.transactions c ++ [t]).

Definition withCategories (m : MonthBudget.t) (cs : list Category.t)
  : MonthBudget.t :=
  MonthBudget.mk (MonthBudget.monthIndex m) (MonthBudget.year m)
    (MonthBudget.status m) (MonthBudget.totalBudget m) (MonthBudget.note m) cs.

Definition withCategoriesTotal (m : MonthBudget.t) (cs : list Category.t)
  (total : number) : MonthBudget.t :=
  MonthBudget.mk (MonthBudget.monthIndex m) (MonthBudget.year m)
    (MonthBudget.status m) total (MonthBudget.note m) cs.

Definition withStatus (m : MonthBudget.t) (s : MonthStatus) : MonthBudget.t :=
  MonthBudget.mk (MonthBudget.monthIndex m) (MonthBudget.year m)
    s (MonthBudget.totalBudget m) (MonthBudget.note m) (MonthBudget.categories m).

Definition withTotal (m : MonthBudget.t) (total : number) : MonthBudget.t :=
  MonthBudget.mk (MonthBudget.monthIndex m) (MonthBudget.year m)
    (MonthBudget.status m) total (MonthBudget.note m) (MonthBudget.categories m).

(** ** Array helpers *)

Definition statusEqb (a b : MonthStatus) : bool :=
  match a, b with
  | NOT_STARTED, NOT_STARTED | ACTIVE, ACTIVE | COMPLETED, COMPLETED => true
  | _, _ => false
  end.

(** [arr.findIndex(p)]: the first index satisfying [p], or [-1]. *)
Fixpoint findIndex {A} (p : A -> bool) (l : list A) : Z :=
  match l with
  | [] => -1
  | x :: r => if p x then 0 else
                let i := findIndex p r in if i <? 0 then -1 else i + 1
  end.

(** [arr.splice(start, 1)] for [0 <= start]: the removed element, if any,
    and the array left. *)
Definition spliceOut {A} (start : Z) (l : list A) : option A * list A :=
  (l !! Z.to_nat start, delete (Z.to_nat start) l).

(** [arr.splice(start, 0, x)] for [0 <= start]: [x] inserted before
    position [start], at the end when [start] is past it. *)
Definition spliceIn {A} (start : Z) (x : A) (l : list A) : list A :=
  take (Z.to_nat start) l ++ x :: drop (Z.to_nat start) l.

(** ** The ledger queries *)

Definition isExpense (t : Transaction.t) : bool :=
  match Transaction.type t with EXPENSE => true | _ => false end.

Definition getCategorySpent (cat : Category.t) : number :=
  fold_left (fun sum t => nadd sum (Transaction.amount t))
    (List.filter isExpense (Category.transactions cat)) zero.

Definition getTotalSpent (month : MonthBudget.t) : number :=
  fold_left (fun acc cat => nadd acc (getCategorySpent cat))
    (MonthBudget.categories month) zero.

(** The sum of the allocations of a month, in display order. *)
Definition totalAllocated (cats : list Category.t) : number :=
  fold_left (fun acc c => nadd acc (Category.allocatedAmount c)) cats zero.

(** The number of transactions recorded in a month. *)
Definition transactionCount (cats : list Category.t) : nat :=
  fold_left (fun acc c => (acc + length (Category.transactions c))%nat) cats 0%nat.

(** ** The handlers of [App] *)

Section Handlers.

(** [Number::toString] of the runtime; a handler only ever uses it inside
    a description text. *)
Variable numberToString : number -> string.

Definition hasId (id : string) (c : Category.t) : bool :=
  String.eqb (Category.id c) id.

(** [parseFloat(curr.amount) || 0] *)
Definition entryAmount (sc : SetupEntry.t) : number :=
  norElse (parseFloat (SetupEntry.amount sc)) zero.

(** The [useMemo] over [setupCategories]. *)
Definition computedSetupTotal (setupCategories : list SetupEntry.t) : number :=
  fold_left (fun acc curr => nadd acc (entryAmount curr)) setupCategories zero.

(** The filter predicate of [finalizeSetup]. *)
Definition validEntry (sc : SetupEntry.t) : bool :=
  negb (String.eqb (trim (SetupEntry.name sc)) "") && ngt (entryAmount sc) zero.

Definition newCategory (env : Env) (i : nat) (sc : SetupEntry.t) : Category.t :=
  Category.mk (randomId env i) (trim (SetupEntry.name sc))
    (trim (SetupEntry.name sc)) (entryAmount sc) [].

Definition finalizeSetup (env : Env) (setupCategories : list SetupEntry.t)
  (setupNote : string) (currentMonth : MonthBudget.t) : option MonthBudget.t :=
  let validCategories := List.filter validEntry setupCategories in
  if (length validCategories =? 0)%nat then None else
  let newCategories := imap (newCategory env) validCategories in
  Some (MonthBudget.mk (MonthBudget.monthIndex currentMonth)
          (MonthBudget.year currentMonth) ACTIVE
          (computedSetupTotal setupCategories) (Some (trim setupNote))
          newCategories).

Definition handleAddNewCategory (env : Env) (newCatName newCatAmount : string)
  (currentMonth : MonthBudget.t) : option MonthBudget.t :=
  let amount := norElse (parseFloat newCatAmount) zero in
  if isEmpty (trim newCatName) then None else
  let newCat := Category.mk (randomId env 0) (trim newCatName)
                  (trim newCatName) amount [] in
  Some (withCategoriesTotal currentMonth
          (MonthBudget.categories currentMonth ++ [newCat])
          (nadd (MonthBudget.totalBudget currentMonth) amount)).

Definition deleteCategory (confirmed : bool) (id : string)
  (currentMonth : MonthBudget.t) : option MonthBudget.t :=
  if negb confirmed then None else
  match List.find (hasId id) (MonthBudget.categories currentMonth) with
  | None => None
  | Some cat =>
      Some (withCategoriesTotal currentMonth
              (List.filter (fun c => negb (hasId id c))
                 (MonthBudget.categories currentMonth))
              (nsub (MonthBudget.totalBudget currentMonth)
                 (Category.allocatedAmount cat)))
  end.

Definition moveCategory (id : string) (direction : Direction)
  (currentMonth : MonthBudget.t) : option MonthBudget.t :=
  let index := findIndex (hasId id) (MonthBudget.categories currentMonth) in
  if index <? 0 then None else
  let newCategories := MonthBudget.categories currentMonth in
  let targetIndex := match direction with UP => index - 1 | DOWN => index + 1 end in
  if (targetIndex <? 0) || (targetIndex >=? Z.of_nat (length newCategories))
  then None else
  match spliceOut index newCategories with
  | (Some removed, rest) =>
      Some (withCategories currentMonth (spliceIn targetIndex removed rest))
  | (None, _) => None (* not reached: [index] is a position of the array *)
  end.

(** The callback of [categories.map] in [addExpense]. *)
Definition expenseUpdate (selected : Category.t) (newTransaction : Transaction.t)
  (c : Category.t) : Category.t :=
  if hasId (Category.id selected) c then withTransaction c newTransaction else c.

(** The callback of [categories.map] in [handleTopUp]. *)
Definition topUpUpdate (selected : Category.t) (amount : number)
  (inTrans : Transaction.t) (c : Category.t) : Category.t :=
  if hasId (Category.id selected) c
  then withAllocation c (nadd (Category.allocatedAmount c) amount) inTrans
  else c.

(** The callback of [categories.map] in [handleTransfer]: the source
    branch is tried first. *)
Definition transferUpdate (fromCat selected : Category.t) (amount : number)
  (outTrans inTrans : Transaction.t) (c : Category.t) : Category.t :=
  if hasId (Category.id fromCat) c then
    withAllocation c (nsub (Category.allocatedAmount c) amount) outTrans
  else if hasId (Category.id selected) c then
    withAllocation c (nadd (Category.allocatedAmount c) amount) inTrans
  else c.

Definition expenseOf (env : Env) (expenseForm : ExpenseForm.t) : Transaction.t :=
  Transaction.mk (randomId env 0) (ExpenseForm.date expenseForm)
    (sorElse (trim (ExpenseForm.note expenseForm)) "Expense")
    (parseFloat (ExpenseForm.amount expenseForm)) EXPENSE None None.

Definition addExpense (env : Env) (selectedCategory : option Category.t)
  (expenseForm : ExpenseForm.t) (currentMonth : MonthBudget.t)
  : option MonthBudget.t :=
  match selectedCategory with
  | None => None
  | Some selected =>
      if isEmpty (ExpenseForm.amount expenseForm) then None else
      let newTransaction := expenseOf env expenseForm in
      let updatedCategories :=
        map (expenseUpdate selected newTransaction)
          (MonthBudget.categories currentMonth) in
      Some (withCategories currentMonth updatedCategories)
  end.

Definition topUpIn (env : Env) (topUpForm : TopUpForm.t) : Transaction.t :=
  let amount := parseFloat (TopUpForm.amount topUpForm) in
  Transaction.mk (randomId env 0) (today env)
    (sorElse (trim (TopUpForm.note topUpForm)) ("Add +$" ++ numberToString amount))
    amount TRANSFER_IN None None.

Definition handleTopUp (env : Env) (selectedCategory : option Category.t)
  (topUpForm : TopUpForm.t) (currentMonth : MonthBudget.t)
  : option MonthBudget.t :=
  match selectedCategory with
  | None => None
  | Some selected =>
      if isEmpty (TopUpForm.amount topUpForm) then None else
      let amount := parseFloat (TopUpForm.amount topUpForm) in
      let inTrans := topUpIn env topUpForm in
      let updatedCategories :=
        map (topUpUpdate selected amount inTrans)
          (MonthBudget.categories currentMonth) in
      Some (withCategoriesTotal currentMonth updatedCategories
              (nadd (MonthBudget.totalBudget currentMonth) amount))
  end.

Definition transferOut (env : Env) (selected : Category.t)
  (transferForm : TransferForm.t) : Transaction.t :=
  let note := trim (TransferForm.note transferForm) in
  Transaction.mk (randomId env 0) (today env)
    (if isEmpty note then "To " ++ Category.name selected else "Out: " ++ note)
    (parseFloat (TransferForm.amount transferForm)) TRANSFER_OUT None None.

Definition transferIn (env : Env) (fromCat : Category.t)
  (transferForm : TransferForm.t) : Transaction.t :=
  let note := trim (TransferForm.note transferForm) in
  Transaction.mk (randomId env 1) (today env)
    (if isEmpty note then "From " ++ Category.name fromCat else "In: " ++ note)
    (parseFloat (TransferForm.amount transferForm)) TRANSFER_IN None None.

Definition handleTransfer (env : Env) (selectedCategory : option Category.t)
  (transferForm : TransferForm.t) (currentMonth : MonthBudget.t)
  : option MonthBudget.t :=
  match selectedCategory with
  | None => None
  | Some selected =>
      if isEmpty (TransferForm.amount transferForm)
         || isEmpty (TransferForm.fromCategoryId transferForm) then None else
      let amount := parseFloat (TransferForm.amount transferForm) in
      match List.find (hasId (TransferForm.fromCategoryId transferForm))
              (MonthBudget.categories currentMonth) with
      | None => None
      | Some fromCat =>
          let outTrans := transferOut env selected transferForm in
          let inTrans := transferIn env fromCat transferForm in
          let updatedCategories :=
            map (transferUpdate fromCat selected amount outTrans inTrans)
              (MonthBudget.categories currentMonth) in
          Some (withCategories currentMonth updatedCategories)
      end
  end.

(** The Finalize / Unlock button of the detail view. *)
Definition toggleStatus (currentMonth : MonthBudget.t) : option MonthBudget.t :=
  let nextStatus :=
    if statusEqb (MonthBudget.status currentMonth) COMPLETED
    then ACTIVE else COMPLETED in
  Some (withStatus currentMonth nextStatus).

(** The Save Changes button of the Edit Budget modal. *)
Definition saveEditTotal (editTotalValue : string) (currentMonth : MonthBudget.t)
  : option MonthBudget.t :=
  Some (withTotal currentMonth (norElse (parseFloat editTotalValue) zero)).

(** *** Handlers on the year *)

(** [updateMonth]: the month at [selectedMonthIndex] is replaced. *)
Definition updateMonth (selectedMonthIndex : nat) (updatedMonth : MonthBudget.t)
  (prev : BudgetYear.t) : BudgetYear.t :=
  BudgetYear.mk (BudgetYear.year prev)
    (imap (fun i m => if (i =? selectedMonthIndex)%nat then updatedMonth else m)
       (BudgetYear.months prev)).

Definition copyCategory (env : Env) (i : nat) (c : Category.t) : Category.t :=
  Category.mk (randomId env i) (Category.name c) (Category.icon c)
    (Category.allocatedAmount c) [].

(** How a call of [handleCopyPlan] ends. *)
Inductive CopyOutcome :=
  | Unsupported                     (* the alert of the last month *)
  | Declined                        (* the overwrite was not confirmed *)
  | Thrown                          (* a month of the array is undefined *)
  | Copied (updated : BudgetYear.t) (selectedMonthIndex : nat).

Definition handleCopyPlan (env : Env) (confirmed : bool)
  (yearData : BudgetYear.t) (selectedMonthIndex : nat) : CopyOutcome :=
  let nextMonthIndex := (selectedMonthIndex + 1)%nat in
  if (11 <? nextMonthIndex)%nat then Unsupported else
  match BudgetYear.months yearData !! nextMonthIndex with
  | None => Thrown
  | Some nextMonth =>
      if negb (statusEqb (MonthBudget.status nextMonth) NOT_STARTED)
         && negb confirmed then Declined else
      match BudgetYear.months yearData !! selectedMonthIndex with
      | None => Thrown
      | Some currentMonth =>
          let copiedCategories :=
            imap (copyCategory env) (MonthBudget.categories currentMonth) in
          let newMonths :=
            <[nextMonthIndex :=
                MonthBudget.mk (MonthBudget.monthIndex nextMonth)
                  (MonthBudget.year nextMonth) ACTIVE
                  (MonthBudget.totalBudget currentMonth)
                  (MonthBudget.note currentMonth) copiedCategories]>
              (BudgetYear.months yearData) in
          Copied (BudgetYear.mk (BudgetYear.year yearData) newMonths)
            nextMonthIndex
      end
  end.

(** *** The ledger as a transition system *)

(** The part of the component state the ledger handlers act on. *)
Record AppState := mkState {
  yearData : BudgetYear.t;
  selectedMonthIndex : nat
}.

(** A click on a ledger control, with the buffers its handler reads. *)
Inductive Action :=
  | FinalizeSetup (setupCategories : list SetupEntry.t) (setupNote : string)
  | AddNewCategory (newCatName newCatAmount : string)
  | DeleteCategory (confirmed : bool) (id : string)
  | MoveCategory (id : string) (direction : Direction)
  | AddExpense (selectedCategory : option Category.t) (form : ExpenseForm.t)
  | TopUp (selectedCategory : option Category.t) (form : TopUpForm.t)
  | Transfer (selectedCategory : option Category.t) (form : TransferForm.t)
  | ToggleStatus
  | SaveEditTotal (editTotalValue : string)
  | CopyPlan (confirmed : bool).

Definition onMonth (env : Env) (a : Action) (currentMonth : MonthBudget.t)
  : option MonthBudget.t :=
  match a with
  | FinalizeSetup entries note => finalizeSetup env entries note currentMonth
  | AddNewCategory name amount => handleAddNewCategory env name amount currentMonth
  | DeleteCategory confirmed id => deleteCategory confirmed id currentMonth
  | MoveCategory id direction => moveCategory id direction currentMonth
  | AddExpense sel form => addExpense env sel form currentMonth
  | TopUp sel form => handleTopUp env sel form currentMonth
  | Transfer sel form => handleTransfer env sel form currentMonth
  | ToggleStatus => toggleStatus currentMonth
  | SaveEditTotal v => saveEditTotal v currentMonth
  | CopyPlan _ => None
  end.

(** The state after the handler of [a] has run. With no month at the
    selected position a month handler has nothing to replace
    ([updateMonth] maps over the months there are). *)
Definition perform (env : Env) (a : Action) (s : AppState) : AppState :=
  match a with
  | CopyPlan confirmed =>
      match handleCopyPlan env confirmed (yearData s) (selectedMonthIndex s) with
      | Copied updated next => mkState updated next
      | _ => s
      end
  | _ =>
      match BudgetYear.months (yearData s) !! selectedMonthIndex s with
      | None => s
      | Some currentMonth =>
          match onMonth env a currentMonth with
          | Some updatedMonth =>
              mkState (updateMonth (selectedMonthIndex s) updatedMonth (yearData s))
                (selectedMonthIndex s)
          | None => s
          end
      end
  end.

(** The current month once a month handler has run: replaced by
    [updateMonth], or left as it was by an early return. *)
Definition after (r : option MonthBudget.t) (currentMonth : MonthBudget.t)
  : MonthBudget.t :=
  match r with Some updatedMonth => updatedMonth | None => currentMonth end.

(** The budget of the month at position [i], when there is one. *)
Definition budgetAt (i : nat) (s : AppState) : option number :=
  MonthBudget.totalBudget <$> (BudgetYear.months (yearData s) !! i).

End Handlers.

(** *** Kinds of operation *)

Inductive ActionKind :=
  | KFinalizeSetup | KAddNewCategory | KDeleteCategory | KMoveCategory
  | KAddExpense | KTopUp | KTransfer | KToggleStatus | KSaveEditTotal
  | KCopyPlan.

Definition kindOf (a : Action) : ActionKind :=
  match a with
  | FinalizeSetup _ _ => KFinalizeSetup
  | AddNewCategory _ _ => KAddNewCategory
  | DeleteCategory _ _ => KDeleteCategory
  | MoveCategory _ _ => KMoveCategory
  | AddExpense _ _ => KAddExpense
  | TopUp _ _ => KTopUp
  | Transfer _ _ => KTransfer
  | ToggleStatus => KToggleStatus
  | SaveEditTotal _ => KSaveEditTotal
  | CopyPlan _ => KCopyPlan
  end.

(** Some run of an operation of kind [k] leaves some month of the year
    with another [totalBudget] than it had. *)
Definition canChangeBudget (k : ActionKind) : Prop :=
  exists numberToString env a s i,
    kindOf a = k /\
    budgetAt i (perform numberToString env a s) <> budgetAt i s.

(** ** The default year of [loadLocalYearData] *)

Definition defaultMonth (year : Z) (i : nat) : MonthBudget.t :=
  MonthBudget.mk (Z.of_nat i) year NOT_STARTED zero None [].

Definition defaultYearData (year : Z) : BudgetYear.t :=
  BudgetYear.mk year (map (defaultMonth year) (seq 0 12)).

(** ** Sample data *)

(** An environment whose draws are k[n], k[n+1], ... *)
Definition sampleEnvFrom (n : nat) : Env :=
  mkEnv (fun k => ("k" ++ NilZero.string_of_uint (Nat.to_uint (n + k)))%string)
    "2026-01-15".

Definition sampleEnv : Env := sampleEnvFrom 0.

Definition groceries : Category.t :=
  Category.mk "g7f3k2a9q" "Groceries" "Groceries" (ofZ 400) [].

Definition rent : Category.t :=
  Category.mk "r0x8m4b1z" "Rent" "Rent" (ofZ 1200) [].

Definition january : MonthBudget.t :=
  MonthBudget.mk 0 2026 ACTIVE (ofZ 1600) (Some "Salary") [groceries; rent].

Definition sampleYear : BudgetYear.t :=
  BudgetYear.mk 2026 (january :: map (defaultMonth 2026) (seq 1 11)).

Definition namesAndAmounts (cats : list Category.t) : list (string * number) :=
  map (fun c => (Category.name c, Category.allocatedAmount c)) cats.

(** A setup sheet with a filled row and a row whose name was left blank. *)
Definition setupWithUnnamed : list SetupEntry.t :=
  [SetupEntry.mk "Rent" "100"; SetupEntry.mk "" "50"].

Definition sampleState : AppState := mkState sampleYear 0.

(** The four kinds the budget is said to change with. *)
Definition listedKinds : list ActionKind :=
  [KFinalizeSetup; KTopUp; KAddNewCategory; KDeleteCategory].

(** The kinds whose handler writes [totalBudget]. *)
Definition budgetKinds : list ActionKind :=
  [KFinalizeSetup; KTopUp; KAddNewCategory; KDeleteCategory; KSaveEditTotal;
   KCopyPlan].

Definition transferForm100 : TransferForm.t :=
  TransferForm.mk "100" "r0x8m4b1z" "".




Definition amountsRecorded (m : MonthBudget.t) : list (list number) :=
  map (fun c => map Transaction.amount (Category.transactions c))
    (MonthBudget.categories m).

Definition topUpForm20 : TopUpForm.t := TopUpForm.mk "20" "".

(** Forms whose amount field holds text that is no number. *)
Definition topUpFormText : TopUpForm.t := TopUpForm.mk "abc" "".

Definition expenseFormText : ExpenseForm.t :=
  ExpenseForm.mk "abc" "lunch" "2026-01-15".

(** The example scenario of the specification: January is set up with
    Groceries 400 and Rent 1200, an expense of 50 is recorded on Groceries,
    100 is transferred from Rent to Groceries, Groceries is topped up by
    20. *)
Definition scenarioGroceries : Category.t :=
  Category.mk "k0" "Groceries" "Groceries" (ofZ 400) [].

Definition scenarioActions : list (Env * Action) :=
  [ (sampleEnvFrom 0,
     FinalizeSetup [SetupEntry.mk "Groceries" "400"; SetupEntry.mk "Rent" "1200"]
       "Salary");
    (sampleEnvFrom 2,
     AddExpense (Some scenarioGroceries) (ExpenseForm.mk "50" "" "2026-01-15"));
    (sampleEnvFrom 3,
     Transfer (Some scenarioGroceries) (TransferForm.mk "100" "k1" ""));
    (sampleEnvFrom 5,
     TopUp (Some scenarioGroceries) (TopUpForm.mk "20" "")) ].

Definition run (numberToString : number -> string) (acts : list (Env * Action))
  (s : AppState) : AppState :=
  fold_left (fun st ea => perform numberToString (fst ea) (snd ea) st) acts s.

Definition monthAt (i : nat) (s : AppState) : option MonthBudget.t :=
  BudgetYear.months (yearData s) !! i.

(** ** Further arithmetic of JS numbers *)

Definition hundred : number := ofZ 100.

(** [x >= y]: false as soon as one side is NaN. *)
Definition nge (x y : number) : bool := nle y x.

(** [x * y] *)
Definition nmul (x y : number) : number :=
  match x, y with
  | NaN, _ | _, NaN => NaN
  | Fin a, Fin b => Fin (a * b)%Qc
  | PosInf, PosInf | NegInf, NegInf => PosInf
  | PosInf, NegInf | NegInf, PosInf => NegInf
  | PosInf, Fin a | Fin a, PosInf =>
      match (a ?= Q2Qc 0)%Qc with Eq => NaN | Gt => PosInf | Lt => NegInf end
  | NegInf, Fin a | Fin a, NegInf =>
      match (a ?= Q2Qc 0)%Qc with Eq => NaN | Gt => NegInf | Lt => PosInf end
  end.

(** [x / y], zero being the positive zero. *)
Definition ndiv (x y : number) : number :=
  match x, y with
  | NaN, _ | _, NaN => NaN
  | Fin a, Fin b =>
      match (b ?= Q2Qc 0)%Qc with
      | Eq => match (a ?= Q2Qc 0)%Qc with
              | Eq => NaN | Gt => PosInf | Lt => NegInf
              end
      | _ => Fin (a / b)%Qc
      end
  | Fin _, _ => zero
  | PosInf, Fin b =>
      match (b ?= Q2Qc 0)%Qc with Lt => NegInf | _ => PosInf end
  | NegInf, Fin b =>
      match (b ?= Q2Qc 0)%Qc with Lt => PosInf | _ => NegInf end
  | _, _ => NaN
  end.

(** [Math.max(x, y)] and [Math.min(x, y)]: NaN as soon as one side is. *)
Definition nmax (x y : number) : number :=
  match x, y with
  | NaN, _ | _, NaN => NaN
  | _, _ => if ngt y x then y else x
  end.

Definition nmin (x y : number) : number :=
  match x, y with
  | NaN, _ | _, NaN => NaN
  | _, _ => if ngt x y then y else x
  end.

(** ** The progress bar and the chart series *)

(** The [percentage] of [ProgressBar]. *)
Definition barPercentage (current total : number) : number :=
  if nle total zero then zero
  else nmin (nmax (nmul (ndiv current total) hundred) zero) hundred.

(** The [color] of [ProgressBar]. *)
Definition barColor (percentage : number) : string :=
  if nge percentage hundred then "bg-red-500"
  else if ngt percentage (ofZ 85) then "bg-orange-400"
  else "bg-[#FFA500]".

(** What [ProgressBar] renders with: the width in percent and the colour
    class. *)
Definition ProgressBar (current total : number) : number * string :=
  let percentage := barPercentage current total in
  (percentage, barColor percentage).

(** The placeholder [0.0001] of a slice with nothing spent. *)
Definition chartPlaceholder : number := Fin (Q2Qc (1 # 10000)).

(** [chartData]: one (name, value) slice per envelope. *)
Definition chartData (currentMonth : MonthBudget.t) : list (string * number) :=
  map (fun c => (Category.name c, norElse (getCategorySpent c) chartPlaceholder))
    (MonthBudget.categories currentMonth).


(** ** The local snapshot store of [services/storage.ts] *)

Definition STORAGE_KEY : string := "mango_budget_data".

(** The decimal text of an integer, as a template literal prints a year. *)
Definition integerToString (z : Z) : string :=
  NilZero.string_of_int (Z.to_int z).

Definition storageKey (year : Z) : string :=
  (STORAGE_KEY ++ "_" ++ integerToString year)%string.

Section Storage.

(** [JSON.stringify] and [JSON.parse] on a year; [parse] is [None] where
    [JSON.parse] throws. A text that parses to something that is not a
    year is outside the model. *)
Variable stringify : BudgetYear.t -> string.
Variable parse : string -> option BudgetYear.t.

Definition saveLocalYearData (data : BudgetYear.t)
  (localStorage : gmap string string) : gmap string string :=
  <[storageKey (BudgetYear.year data) := stringify data]> localStorage.

Definition loadLocalYearData (year : Z) (localStorage : gmap string string)
  : BudgetYear.t :=
  match localStorage !! storageKey year with
  | Some stored =>
      if isEmpty stored then defaultYearData year
      else match parse stored with
           | Some data => data
           | None => defaultYearData year
           end
  | None => defaultYearData year
  end.

(** [handleYearChange]: the year shown is replaced by the stored one, the
    selected month stays. *)
Definition handleYearChange (newYear : Z) (localStorage : gmap string string)
  (s : AppState) : AppState :=
  mkState (loadLocalYearData newYear localStorage) (selectedMonthIndex s).

End Storage.

(** ** The text of an insight *)

(** The characters of [/[*_#`~]/]. *)
Definition isMarkup (c : ascii) : bool :=
  let n := nat_of_ascii c in
  (n =? 42)%nat || (n =? 95)%nat || (n =? 35)%nat || (n =? 96)%nat
  || (n =? 126)%nat.

(** [s.replace(/[*_#`~]/g, '')] *)
Fixpoint stripMarkup (s : string) : string :=
  match s with
  | String c r => if isMarkup c then stripMarkup r else String c (stripMarkup r)
  | EmptyString => EmptyString
  end.

(** How the request of [getBudgetInsights] ends: with a response, whose
    text may be missing, or with an exception. *)
Inductive Generation :=
  | Responded (text : option string)
  | Failed.

(** What [getBudgetInsights] returns once the request has ended. *)
Definition insightText (g : Generation) : string :=
  match g with
  | Responded text =>
      stripMarkup
        (match text with
         | Some t => sorElse t "Financial analysis is currently unavailable."
         | None => "Financial analysis is currently unavailable."
         end)
  | Failed =>
      "An error occurred while generating the professional summary. Please ensure your budget data is complete."
  end.

(** ** Predicates of the further properties *)

(** The month a handler writes: the selected one, the next one for
    copy-plan. *)
Definition targetIndex (a : Action) (s : AppState) : nat :=
  match a with
  | CopyPlan _ => S (selectedMonthIndex s)
  | _ => selectedMonthIndex s
  end.

(** A year of twelve months, each at its place, and a month selected. *)
Definition wellFormed (year : Z) (s : AppState) : Prop :=
  length (BudgetYear.months (yearData s)) = 12%nat /\
  (selectedMonthIndex s <= 11)%nat /\
  BudgetYear.year (yearData s) = year /\
  forall i m, BudgetYear.months (yearData s) !! i = Some m ->
    MonthBudget.monthIndex m = Z.of_nat i /\ MonthBudget.year m = year.

(** The budget of a month is the sum of the allocations of its
    envelopes. *)
Definition balanced (m : MonthBudget.t) : Prop :=
  MonthBudget.totalBudget m = totalAllocated (MonthBudget.categories m).

Definition idsOf (m : MonthBudget.t) : list string :=
  map Category.id (MonthBudget.categories m).



(** A sample codec for the snapshot store, which writes the number of the
    year and reads it back as the default year of that number. *)
Definition stringifyYearNumber (data : BudgetYear.t) : string :=
  integerToString (BudgetYear.year data).

Definition parseYearNumber (s : string) : option BudgetYear.t :=
  (fun i => defaultYearData (Z.of_int i)) <$> NilZero.int_of_string s.

Definition noMarkup (s : string) : Prop :=
  Forall (fun c => isMarkup c = false) (list_ascii_of_string s).

(** * Properties *)

(** ** The runtime model on examples *)

Example parseFloat_int : parseFloat "100" = ofZ 100.
Proof. reflexivity. Qed.

Example parseFloat_frac : parseFloat " 12.50abc" = Fin (Q2Qc (25 # 2)).
Proof. reflexivity. Qed.

Example parseFloat_exp : parseFloat "-1.5e2" = ofZ (-150).
Proof. reflexivity. Qed.

Example parseFloat_halfexp : parseFloat ".5e+" = Fin (Q2Qc (1 # 2)).
Proof. reflexivity. Qed.

Example parseFloat_text : parseFloat "abc" = NaN.
Proof. reflexivity. Qed.

Example parseFloat_empty : parseFloat "" = NaN.
Proof. reflexivity. Qed.

Example parseFloat_dot : parseFloat "." = NaN.
Proof. reflexivity. Qed.

Example parseFloat_inf : parseFloat "-Infinity" = NegInf.
Proof. reflexivity. Qed.

Example trim_both : trim "  Rent " = "Rent".
Proof. reflexivity. Qed.

Example plainToString_frac : plainToString (parseFloat "-12.50") = "-12.5".
Proof. reflexivity. Qed.

Example plainToString_int : plainToString (ofZ 1600) = "1600".
Proof. reflexivity. Qed.

Example defaultYearData_length :
  length (BudgetYear.months (defaultYearData 2026)) = 12%nat.
Proof. reflexivity. Qed.

(** The example scenario of the specification, run on the default year. *)
Example spec_scenario :
  let s := run plainToString scenarioActions (mkState (defaultYearData 2026) 0) in
  (MonthBudget.status <$> monthAt 0 s) = Some ACTIVE /\
  (MonthBudget.totalBudget <$> monthAt 0 s) = Some (ofZ 1620) /\
  (namesAndAmounts ∘ MonthBudget.categories <$> monthAt 0 s)
    = Some [("Groceries", ofZ 520); ("Rent", ofZ 1100)] /\
  (getTotalSpent <$> monthAt 0 s) = Some (ofZ 50) /\
  (map getCategorySpent ∘ MonthBudget.categories <$> monthAt 0 s)
    = Some [ofZ 50; ofZ 0] /\
  (map (fun c => map Transaction.description (Category.transactions c))
     ∘ MonthBudget.categories <$> monthAt 0 s)
    = Some [["Expense"; "From Rent"; "Add +$20"]; ["To Groceries"]] /\
  monthAt 1 s = Some (defaultMonth 2026 1).
Proof. vm_compute. repeat split; reflexivity. Qed.

(** ** Arithmetic of [number] *)

Lemma nadd_comm x y : nadd x y = nadd y x.
Proof. destruct x, y; simpl; try reflexivity. f_equal. ring. Qed.

Lemma nadd_assoc x y z : nadd x (nadd y z) = nadd (nadd x y) z.
Proof. destruct x, y, z; simpl; try reflexivity. f_equal. ring. Qed.

Lemma nadd_zero_r x : nadd x zero = x.
Proof. destruct x; simpl; try reflexivity. f_equal. ring. Qed.

Lemma nadd_zero_l x : nadd zero x = x.
Proof. rewrite nadd_comm. apply nadd_zero_r. Qed.




(** ** Setup *)





(** C1, at a setup sheet with a second row of amount 50 and no name: the
    month becomes ACTIVE with the single envelope Rent of 100, yet its
    [totalBudget] is 150, the 50 of the dropped row included, while the
    kept entries sum to 100. *)
Theorem finalizeSetup_counts_dropped_rows :
  let m' := after (finalizeSetup sampleEnv setupWithUnnamed "" (defaultMonth 2026 0))
              (defaultMonth 2026 0) in
  MonthBudget.status m' = ACTIVE /\
  namesAndAmounts (MonthBudget.categories m') = [("Rent", ofZ 100)] /\
  totalAllocated (MonthBudget.categories m') = ofZ 100 /\
  MonthBudget.totalBudget m' = ofZ 150.
Proof. vm_compute. repeat split; reflexivity. Qed.

(** ** Which operations write [totalBudget] *)

Lemma moveCategory_totalBudget id d m m' :
  moveCategory id d m = Some m' ->
  MonthBudget.totalBudget m' = MonthBudget.totalBudget m.
Proof.
  unfold moveCategory. intros H.
  repeat match type of H with
         | (if ?b then _ else _) = _ => destruct b; [discriminate |]
         | match ?x with _ => _ end = _ => destruct x as [[?|] ?]; [| discriminate]
         end.
  now injection H as <-.
Qed.

Lemma addExpense_totalBudget env sel form m m' :
  addExpense env sel form m = Some m' ->
  MonthBudget.totalBudget m' = MonthBudget.totalBudget m.
Proof.
  unfold addExpense. destruct sel; [| discriminate].
  destruct (isEmpty _); [discriminate |]. intros H. now injection H as <-.
Qed.

Lemma handleTransfer_totalBudget env sel form m m' :
  handleTransfer env sel form m = Some m' ->
  MonthBudget.totalBudget m' = MonthBudget.totalBudget m.
Proof.
  unfold handleTransfer. destruct sel; [| discriminate].
  destruct (_ || _); [discriminate |].
  destruct (List.find _ _); [| discriminate].
  intros H. now injection H as <-.
Qed.

Lemma toggleStatus_totalBudget m m' :
  toggleStatus m = Some m' ->
  MonthBudget.totalBudget m' = MonthBudget.totalBudget m.
Proof. unfold toggleStatus. intros H. now injection H as <-. Qed.

Lemma budgetAt_updateMonth sel m' y i :
  budgetAt i (mkState (updateMonth sel m' y) sel) =
    if decide (i = sel) then
      (fun _ => MonthBudget.totalBudget m') <$> (BudgetYear.months y !! i)
    else budgetAt i (mkState y sel).
Proof.
  unfold budgetAt, updateMonth. simpl. rewrite list_lookup_imap.
  destruct (BudgetYear.months y !! i) as [m|]; simpl.
  - destruct (decide (i = sel)) as [->|Hne].
    + now rewrite Nat.eqb_refl.
    + apply Nat.eqb_neq in Hne. now rewrite Hne.
  - now destruct (decide (i = sel)).
Qed.

(** Reordering, an expense, a transfer and finalize/unlock leave the
    budget of every month of the year as it was. *)
Lemma perform_frame numberToString env a s i :
  ~ In (kindOf a) budgetKinds ->
  budgetAt i (perform numberToString env a s) = budgetAt i s.
Proof.
  intros Hk. destruct s as [y sel].
  assert (Hm : forall m m', BudgetYear.months y !! sel = Some m ->
             onMonth numberToString env a m = Some m' ->
             MonthBudget.totalBudget m' = MonthBudget.totalBudget m).
  { intros m m' _ H. destruct a; simpl in Hk, H;
      try (exfalso; apply Hk; tauto).
    - eapply moveCategory_totalBudget; eauto.
    - eapply addExpense_totalBudget; eauto.
    - eapply handleTransfer_totalBudget; eauto.
    - eapply toggleStatus_totalBudget; eauto. }
  assert (Hgen :
    budgetAt i
      match BudgetYear.months y !! sel with
      | None => mkState y sel
      | Some currentMonth =>
          match onMonth numberToString env a currentMonth with
          | Some updatedMonth => mkState (updateMonth sel updatedMonth y) sel
          | None => mkState y sel
          end
      end = budgetAt i (mkState y sel)).
  { destruct (BudgetYear.months y !! sel) as [m|] eqn:Hsel; [| reflexivity].
    destruct (onMonth numberToString env a m) as [m'|] eqn:Hon; [| reflexivity].
    rewrite budgetAt_updateMonth. destruct (decide (i = sel)) as [->|]; [| reflexivity].
    unfold budgetAt. simpl. rewrite Hsel. simpl. f_equal. eauto. }
  destruct a; simpl in Hk |- *; try exact Hgen; exfalso; apply Hk; tauto.
Qed.

(** Two numbers are told apart by evaluation. *)
Ltac numbers_differ :=
  let H := fresh in intros H; vm_compute in H; discriminate H.

Lemma canChange_finalizeSetup : canChangeBudget KFinalizeSetup.
Proof.
  exists plainToString, sampleEnv, (FinalizeSetup setupWithUnnamed ""), sampleState, 0%nat.
  split; [reflexivity | numbers_differ].
Qed.

Lemma canChange_topUp : canChangeBudget KTopUp.
Proof.
  exists plainToString, sampleEnv,
    (TopUp (Some groceries) (TopUpForm.mk "20" "")), sampleState, 0%nat.
  split; [reflexivity | numbers_differ].
Qed.

Lemma canChange_addNewCategory : canChangeBudget KAddNewCategory.
Proof.
  exists plainToString, sampleEnv, (AddNewCategory "Fun" "30"), sampleState, 0%nat.
  split; [reflexivity | numbers_differ].
Qed.

Lemma canChange_deleteCategory : canChangeBudget KDeleteCategory.
Proof.
  exists plainToString, sampleEnv, (DeleteCategory true "r0x8m4b1z"), sampleState, 0%nat.
  split; [reflexivity | numbers_differ].
Qed.

Lemma canChange_saveEditTotal : canChangeBudget KSaveEditTotal.
Proof.
  exists plainToString, sampleEnv, (SaveEditTotal "250"), sampleState, 0%nat.
  split; [reflexivity | numbers_differ].
Qed.

Lemma canChange_copyPlan : canChangeBudget KCopyPlan.
Proof.
  exists plainToString, sampleEnv, (CopyPlan true), sampleState, 1%nat.
  split; [reflexivity | numbers_differ].
Qed.

(** C2, as the code has it: the operations that can change the
    [totalBudget] of a month are setup finalization, top-up, category
    addition, category deletion, the Edit Budget save and copy-plan (on the
    next month), and no other; in particular a transfer, an expense, a
    reordering and finalize/unlock leave the [totalBudget] of every month
    of the year as it was. *)
Theorem budget_changing_operations :
  (forall k, canChangeBudget k <-> In k budgetKinds) /\
  (forall numberToString env a s i,
     ~ In (kindOf a) budgetKinds ->
     budgetAt i (perform numberToString env a s) = budgetAt i s).
Proof.
  split; [| exact perform_frame].
  intros k. split.
  - intros (ts & env & a & s & i & <- & Hne).
    destruct (In_dec (fun x y : ActionKind => ltac:(decide equality))
                (kindOf a) budgetKinds) as [Hin | Hnin]; [exact Hin |].
    exfalso. apply Hne. now apply perform_frame.
  - unfold budgetKinds. simpl.
    intros [<- | [<- | [<- | [<- | [<- | [<- | []]]]]]].
    + apply canChange_finalizeSetup.
    + apply canChange_topUp.
    + apply canChange_addNewCategory.
    + apply canChange_deleteCategory.
    + apply canChange_saveEditTotal.
    + apply canChange_copyPlan.
Qed.

Lemma budget_changing_operations_witness :
  budgetAt 0 (perform plainToString sampleEnv
                (Transfer (Some groceries) transferForm100) sampleState)
    = budgetAt 0 sampleState /\
  budgetAt 0 (perform plainToString sampleEnv
                (AddExpense (Some groceries) (ExpenseForm.mk "50" "" "2026-01-15"))
                sampleState)
    = budgetAt 0 sampleState.
Proof.
  destruct budget_changing_operations as [_ Hframe].
  split; apply Hframe; simpl; intuition discriminate.
Defined.

(** C2 as stated fails: saving the Edit Budget modal with 250 typed in
    takes the budget of January from 1600 to 250, and it is none of the four
    operations the claim lists. *)
Lemma editTotal_not_among_listed :
  budgetAt 0 sampleState = Some (ofZ 1600) /\
  budgetAt 0 (perform plainToString sampleEnv (SaveEditTotal "250") sampleState)
    = Some (ofZ 250) /\
  ~ In (kindOf (SaveEditTotal "250")) listedKinds /\
  ~ (forall k, canChangeBudget k <-> In k listedKinds).
Proof.
  split; [reflexivity |]. split; [reflexivity |].
  assert (Hnot : ~ In KSaveEditTotal listedKinds).
  { unfold listedKinds. simpl. intuition discriminate. }
  split; [exact Hnot |].
  intros H. apply Hnot, H, canChange_saveEditTotal.
Qed.

(** ** Envelopes addressed by id *)

Lemma hasId_true id c : hasId id c = true <-> Category.id c = id.
Proof. unfold hasId. apply String.eqb_eq. Qed.

Lemma hasId_false id c : hasId id c = false <-> Category.id c <> id.
Proof. unfold hasId. apply String.eqb_neq. Qed.

Lemma lookup_map {A B} (f : A -> B) (l : list A) (i : nat) :
  map f l !! i = f <$> (l !! i).
Proof. apply (list_lookup_fmap f l i). Qed.

Lemma lookup_ids (l : list Category.t) (i : nat) (c : Category.t) :
  l !! i = Some c -> map Category.id l !! i = Some (Category.id c).
Proof. intros H. now rewrite lookup_map, H. Qed.

(** With unique ids an id names one position. *)
Lemma same_id_same_position (l : list Category.t) i k X c :
  NoDup (map Category.id l) ->
  l !! i = Some X -> l !! k = Some c -> Category.id c = Category.id X -> k = i.
Proof.
  intros Hnd HX Hc Hid.
  apply lookup_ids in HX, Hc. rewrite Hid in Hc.
  exact (NoDup_lookup _ _ _ _ Hnd Hc HX).
Qed.

Create HintDb ledger discriminated.
#[local] Hint Resolve same_id_same_position : ledger.

Lemma find_hasId (l : list Category.t) i X :
  NoDup (map Category.id l) -> l !! i = Some X ->
  List.find (hasId (Category.id X)) l = Some X.
Proof.
  intros Hnd HX. destruct (List.find _ l) as [X0|] eqn:Hf.
  - apply find_some in Hf as [Hin Hid]. apply hasId_true in Hid.
    apply list_elem_of_In, list_elem_of_lookup in Hin as [k Hk].
    assert (k = i) by eauto with ledger. subst k. congruence.
  - exfalso. eapply find_none in Hf.
    + rewrite (proj2 (hasId_true _ _) eq_refl) in Hf. discriminate.
    + apply list_elem_of_In, list_elem_of_lookup. eauto.
Qed.

Lemma find_hasId_absent (l : list Category.t) id :
  ~ In id (map Category.id l) -> List.find (hasId id) l = None.
Proof.
  intros Hn. destruct (List.find _ l) as [X0|] eqn:Hf; [| reflexivity].
  apply find_some in Hf as [Hin Hid]. apply hasId_true in Hid.
  exfalso. apply Hn. rewrite <- Hid. now apply in_map.
Qed.

(** A map that only touches the envelopes of another id leaves a list
    without that id as it is. *)
Lemma map_untouched (f : Category.t -> Category.t) id (l : list Category.t) :
  (forall c, Category.id c <> id -> f c = c) ->
  ~ In id (map Category.id l) -> map f l = l.
Proof.
  intros Hf. induction l as [| c l IH]; simpl; intros Hn; [reflexivity |].
  rewrite Hf, IH; tauto.
Qed.

(** *** Sums over the envelopes of a month *)




Lemma fold_count_acc (l : list Category.t) acc :
  fold_left (fun a c => (a + length (Category.transactions c))%nat) l acc
  = (acc + transactionCount l)%nat.
Proof.
  unfold transactionCount. revert acc.
  induction l as [| c l IH]; intros acc; simpl; [lia |].
  rewrite IH, (IH (length _)). lia.
Qed.

Lemma transactionCount_cons c l :
  transactionCount (c :: l)
  = (length (Category.transactions c) + transactionCount l)%nat.
Proof. unfold transactionCount at 1. simpl. now rewrite fold_count_acc. Qed.




(** ** Transfer *)

Lemma isEmpty_false s : s <> "" -> isEmpty s = false.
Proof. intros H. unfold isEmpty. now apply String.eqb_neq. Qed.



Lemma january_ids_unique : NoDup (map Category.id (MonthBudget.categories january)).
Proof. apply (bool_decide_unpack _). vm_compute. exact I. Qed.


(** ** Amounts that are not positive *)






(** ** Top-up and expense *)

Lemma handleTopUp_runs numberToString env sel form m :
  TopUpForm.amount form <> "" ->
  handleTopUp numberToString env (Some sel) form m =
    Some (withCategoriesTotal m
            (map (topUpUpdate sel (parseFloat (TopUpForm.amount form))
                    (topUpIn numberToString env form))
               (MonthBudget.categories m))
            (nadd (MonthBudget.totalBudget m) (parseFloat (TopUpForm.amount form)))).
Proof. intros Ha. unfold handleTopUp. now rewrite (isEmpty_false _ Ha). Qed.

Lemma addExpense_runs env sel form m :
  ExpenseForm.amount form <> "" ->
  addExpense env (Some sel) form m =
    Some (withCategories m
            (map (expenseUpdate sel (expenseOf env form)) (MonthBudget.categories m))).
Proof. intros Ha. unfold addExpense. now rewrite (isEmpty_false _ Ha). Qed.



(** C5, as the code has it: a top-up or an expense submitted with a
    non-empty amount field whose text parses to no number goes through and
    appends a transaction whose amount is NaN; the top-up also turns the
    allocation of the envelope and the [totalBudget] of the month into
    NaN. *)
Theorem unparsed_amount_recorded_as_NaN numberToString env sel tform eform m i c :
  MonthBudget.categories m !! i = Some c ->
  Category.id c = Category.id sel ->
  TopUpForm.amount tform <> "" ->
  parseFloat (TopUpForm.amount tform) = NaN ->
  ExpenseForm.amount eform <> "" ->
  parseFloat (ExpenseForm.amount eform) = NaN ->
  (exists cats' t,
     handleTopUp numberToString env (Some sel) tform m
       = Some (withCategoriesTotal m cats' NaN) /\
     cats' !! i = Some (withAllocation c NaN t) /\
     Transaction.type t = TRANSFER_IN /\ Transaction.amount t = NaN) /\
  (exists cats' t,
     addExpense env (Some sel) eform m = Some (withCategories m cats') /\
     cats' !! i = Some (withTransaction c t) /\
     Transaction.type t = EXPENSE /\ Transaction.amount t = NaN).
Proof.
  intros Hc Hid Hta Htn Hea Hen. split.
  - eexists _, (topUpIn numberToString env tform).
    rewrite (handleTopUp_runs _ _ _ _ _ Hta), Htn.
    replace (nadd (MonthBudget.totalBudget m) NaN) with NaN
      by now destruct (MonthBudget.totalBudget m).
    split; [reflexivity |]. repeat split.
    + rewrite lookup_map, Hc. simpl. f_equal. unfold topUpUpdate.
      rewrite (proj2 (hasId_true _ _) Hid). f_equal.
      now destruct (Category.allocatedAmount c).
    + unfold topUpIn. simpl. exact Htn.
  - eexists _, (expenseOf env eform).
    rewrite (addExpense_runs _ _ _ _ Hea).
    split; [reflexivity |]. repeat split.
    + rewrite lookup_map, Hc. simpl. f_equal. unfold expenseUpdate.
      now rewrite (proj2 (hasId_true _ _) Hid).
    + exact Hen.
Qed.

Lemma unparsed_amount_recorded_as_NaN_witness :
  amountsRecorded
    (after (handleTopUp plainToString sampleEnv (Some groceries) topUpFormText january)
       january) = [[NaN]; []] /\
  amountsRecorded
    (after (addExpense sampleEnv (Some groceries) expenseFormText january) january)
    = [[NaN]; []].
Proof.
  destruct (unparsed_amount_recorded_as_NaN plainToString sampleEnv groceries
              topUpFormText expenseFormText january 0 groceries)
    as [(c1 & t1 & H1 & _) (c2 & t2 & H2 & _)];
    [ reflexivity | reflexivity | discriminate | reflexivity | discriminate
    | reflexivity | ].
  split; reflexivity.
Defined.

(** C5 as stated fails: topping up Groceries, or recording an expense on
    it, with the text abc in the amount field appends a transaction whose
    amount is NaN, not 0; the top-up leaves the allocation of Groceries
    and the budget of the month NaN as well. *)
Lemma unparsed_amount_is_not_zero :
  parseFloat (TopUpForm.amount topUpFormText) = NaN /\
  amountsRecorded
    (after (handleTopUp plainToString sampleEnv (Some groceries) topUpFormText january)
       january) = [[NaN]; []] /\
  namesAndAmounts (MonthBudget.categories
    (after (handleTopUp plainToString sampleEnv (Some groceries) topUpFormText january)
       january)) = [("Groceries", NaN); ("Rent", ofZ 1200)] /\
  MonthBudget.totalBudget
    (after (handleTopUp plainToString sampleEnv (Some groceries) topUpFormText january)
       january) = NaN /\
  amountsRecorded
    (after (addExpense sampleEnv (Some groceries) expenseFormText january) january)
    = [[NaN]; []] /\
  NaN <> zero.
Proof. repeat split; try reflexivity. discriminate. Qed.

(** ** Deleting an envelope *)

(** With unique ids, filtering an id out removes one position. *)
Lemma filter_out_id (l : list Category.t) i c :
  NoDup (map Category.id l) -> l !! i = Some c ->
  List.filter (fun c' => negb (hasId (Category.id c) c')) l = delete i l.
Proof.
  revert i. induction l as [| x l IH]; intros i Hnd Hc; [discriminate |].
  simpl in Hnd. pose proof (NoDup_cons_1_1 _ _ Hnd) as Hx. apply NoDup_cons_1_2 in Hnd.
  rewrite list_elem_of_In in Hx.
  destruct i as [| i]; simpl in Hc |- *.
  - injection Hc as ->. rewrite (proj2 (hasId_true _ _) eq_refl). simpl.
    clear IH Hnd. induction l as [| y l IH]; simpl; [reflexivity |].
    simpl in Hx. rewrite (proj2 (hasId_false (Category.id c) y)) by (intros E; auto).
    simpl. f_equal. apply IH. tauto.
  - rewrite (proj2 (hasId_false (Category.id c) x)); simpl.
    + f_equal. now apply IH.
    + intros E. apply Hx. rewrite E.
      eapply in_map, list_elem_of_In, list_elem_of_lookup_2, Hc.
Qed.

(** C7: deleting, once confirmed, the envelope of a present id from a
    month with unique ids lowers [totalBudget] by the allocation of that
    envelope and removes that envelope, transactions included, from the
    sequence, the others staying as they were and in their order; for an id
    that is not present the month stays as it is. *)
Theorem deleteCategory_removes_envelope confirmed id m :
  NoDup (map Category.id (MonthBudget.categories m)) ->
  (forall i c,
     MonthBudget.categories m !! i = Some c -> Category.id c = id ->
     deleteCategory true id m =
       Some (withCategoriesTotal m (delete i (MonthBudget.categories m))
               (nsub (MonthBudget.totalBudget m) (Category.allocatedAmount c)))) /\
  (~ In id (map Category.id (MonthBudget.categories m)) ->
   after (deleteCategory confirmed id m) m = m).
Proof.
  intros Hnd. split.
  - intros i c Hc <-. unfold deleteCategory. simpl.
    rewrite (find_hasId _ i c Hnd Hc). now rewrite (filter_out_id _ i c Hnd Hc).
  - intros Hn. unfold deleteCategory.
    destruct (negb confirmed); [reflexivity |].
    now rewrite find_hasId_absent.
Qed.

Lemma deleteCategory_removes_envelope_witness :
  deleteCategory true "r0x8m4b1z" january
    = Some (MonthBudget.mk 0 2026 ACTIVE (ofZ 400) (Some "Salary") [groceries]) /\
  after (deleteCategory true "zzz" january) january = january.
Proof.
  destruct (deleteCategory_removes_envelope true "r0x8m4b1z" january
              january_ids_unique) as [Hpresent _].
  destruct (deleteCategory_removes_envelope true "zzz" january
              january_ids_unique) as [_ Habsent].
  split.
  - rewrite (Hpresent 1%nat rent); reflexivity.
  - apply Habsent. vm_compute. intuition discriminate.
Defined.

(** ** Reordering *)

Lemma findIndex_first {A} (p : A -> bool) l1 x l2 :
  (forall y, In y l1 -> p y = false) -> p x = true ->
  findIndex p (l1 ++ x :: l2) = Z.of_nat (length l1).
Proof.
  intros H1 Hx. induction l1 as [| y l1 IH]; simpl.
  - now rewrite Hx.
  - rewrite (H1 y) by (simpl; tauto).
    rewrite IH by (intros z Hz; apply H1; simpl; tauto).
    destruct (Z.ltb_spec (Z.of_nat (length l1)) 0); lia.
Qed.

Lemma no_id_no_match id (l : list Category.t) :
  ~ In id (map Category.id l) -> forall y, In y l -> hasId id y = false.
Proof.
  intros Hn y Hy. apply hasId_false. intros E. apply Hn. rewrite <- E.
  now apply in_map.
Qed.

Lemma splice_permutation {A} (l : list A) (n j : nat) (x : A) :
  l !! n = Some x ->
  Permutation (take j (delete n l) ++ x :: drop j (delete n l)) l.
Proof.
  intros Hx. rewrite <- Permutation_middle, take_drop.
  symmetry. now apply delete_Permutation.
Qed.

Lemma withCategories_same m : withCategories m (MonthBudget.categories m) = m.
Proof. now destruct m. Qed.

(** Moving an envelope past its neighbour, in either direction, swaps the
    two. *)
Lemma moveCategory_swaps id m l1 a b l2 :
  MonthBudget.categories m = l1 ++ a :: b :: l2 ->
  ~ In id (map Category.id l1) ->
  (Category.id a <> id -> Category.id b = id ->
   moveCategory id UP m = Some (withCategories m (l1 ++ b :: a :: l2))) /\
  (Category.id a = id ->
   moveCategory id DOWN m = Some (withCategories m (l1 ++ b :: a :: l2))).
Proof.
  intros Hcats Hl1. pose proof (no_id_no_match id l1 Hl1) as Hno. split.
  - intros Ha Hb. unfold moveCategory. rewrite Hcats.
    replace (l1 ++ a :: b :: l2) with ((l1 ++ [a]) ++ b :: l2)
      by now rewrite <- app_assoc.
    rewrite findIndex_first.
    + rewrite !length_app. simpl.
      destruct (Z.ltb_spec (Z.of_nat (length l1 + 1)) 0); [lia |].
      destruct (Z.ltb_spec (Z.of_nat (length l1 + 1) - 1) 0); [lia |].
      destruct (Z.geb_spec (Z.of_nat (length l1 + 1) - 1)
                  (Z.of_nat (length l1 + 1 + S (length l2)))); [lia |].
      simpl. unfold spliceOut, spliceIn.
      replace (Z.to_nat (Z.of_nat (length l1 + 1))) with (length (l1 ++ [a]))
        by (rewrite length_app; simpl; lia).
      replace (Z.to_nat (Z.of_nat (length l1 + 1) - 1)) with (length l1) by lia.
      rewrite list_lookup_middle by reflexivity.
      rewrite delete_middle, <- app_assoc. simpl.
      now rewrite take_app_length, drop_app_length.
    + intros y Hy. apply in_app_or in Hy as [Hy | [<- | []]]; [auto |].
      now apply hasId_false.
    + now apply hasId_true.
  - intros Ha. unfold moveCategory. rewrite Hcats.
    rewrite findIndex_first by (auto; now apply hasId_true).
    rewrite !length_app. simpl.
    destruct (Z.ltb_spec (Z.of_nat (length l1)) 0); [lia |].
    destruct (Z.ltb_spec (Z.of_nat (length l1) + 1) 0); [lia |].
    destruct (Z.geb_spec (Z.of_nat (length l1) + 1)
                (Z.of_nat (length l1 + S (S (length l2))))); [lia |].
    simpl. unfold spliceOut, spliceIn.
    replace (Z.to_nat (Z.of_nat (length l1))) with (length l1) by lia.
    replace (Z.to_nat (Z.of_nat (length l1) + 1)) with (length (l1 ++ [b]))
      by (rewrite length_app; simpl; lia).
    rewrite list_lookup_middle by reflexivity. rewrite delete_middle.
    replace (l1 ++ b :: l2) with ((l1 ++ [b]) ++ l2) by now rewrite <- app_assoc.
    rewrite take_app_length, drop_app_length, <- app_assoc. reflexivity.
Qed.

(** C9: moving an envelope up or down leaves a month whose envelope
    sequence is a permutation of the one before, every envelope as it was
    and the rest of the month untouched: an envelope with a neighbour on
    the side it moves to changes places with it, and the first envelope
    moved up, or the last one moved down, leaves the month as it is. *)
Theorem moveCategory_permutes id direction m :
  Permutation (MonthBudget.categories (after (moveCategory id direction m) m))
    (MonthBudget.categories m) /\
  after (moveCategory id direction m) m
    = withCategories m
        (MonthBudget.categories (after (moveCategory id direction m) m)) /\
  (forall l1 a b l2,
     MonthBudget.categories m = l1 ++ a :: b :: l2 ->
     ~ In id (map Category.id l1) ->
     (Category.id a <> id -> Category.id b = id ->
      moveCategory id UP m = Some (withCategories m (l1 ++ b :: a :: l2))) /\
     (Category.id a = id ->
      moveCategory id DOWN m = Some (withCategories m (l1 ++ b :: a :: l2)))) /\
  (forall c rest,
     MonthBudget.categories m = c :: rest -> Category.id c = id ->
     moveCategory id UP m = None) /\
  (forall init c,
     MonthBudget.categories m = init ++ [c] -> Category.id c = id ->
     ~ In id (map Category.id init) ->
     moveCategory id DOWN m = None).
Proof.
  assert (Hshape :
    moveCategory id direction m = None \/
    exists n j x,
      MonthBudget.categories m !! n = Some x /\
      moveCategory id direction m =
        Some (withCategories m
                (take j (delete n (MonthBudget.categories m)) ++
                 x :: drop j (delete n (MonthBudget.categories m))))).
  { unfold moveCategory, spliceOut, spliceIn.
    destruct (_ <? 0); [now left |].
    destruct (_ || _); [now left |].
    destruct (MonthBudget.categories m !! _) as [x|] eqn:Hx; [| now left].
    right. eauto. }
  split; [| split; [| split; [| split]]].
  - destruct Hshape as [-> | (n & j & x & Hx & ->)]; simpl; [reflexivity |].
    now apply splice_permutation.
  - destruct Hshape as [-> | (n & j & x & Hx & ->)]; simpl;
      [symmetry; apply withCategories_same | reflexivity].
  - intros l1 a b l2. apply moveCategory_swaps.
  - intros c rest Hcats Hc. unfold moveCategory. rewrite Hcats. simpl.
    now rewrite (proj2 (hasId_true _ _) Hc).
  - intros init c Hcats Hc Hinit. unfold moveCategory. rewrite Hcats.
    rewrite (findIndex_first (hasId id) init c []);
      [| now apply no_id_no_match | now apply hasId_true].
    rewrite length_app. simpl.
    destruct (Z.ltb_spec (Z.of_nat (length init)) 0); [lia |].
    destruct (Z.ltb_spec (Z.of_nat (length init) + 1) 0); [lia |].
    destruct (Z.geb_spec (Z.of_nat (length init) + 1)
                (Z.of_nat (length init + 1))); [reflexivity | lia].
Qed.

Lemma moveCategory_permutes_witness :
  moveCategory "r0x8m4b1z" UP january
    = Some (withCategories january [rent; groceries]) /\
  moveCategory "g7f3k2a9q" DOWN january
    = Some (withCategories january [rent; groceries]) /\
  moveCategory "g7f3k2a9q" UP january = None /\
  moveCategory "r0x8m4b1z" DOWN january = None.
Proof.
  destruct (moveCategory_permutes "r0x8m4b1z" UP january)
    as (_ & _ & Hswap & _ & Hlast).
  destruct (moveCategory_permutes "g7f3k2a9q" DOWN january)
    as (_ & _ & Hswap' & Hfirst & _).
  split; [| split; [| split]].
  - apply (Hswap [] groceries rent []);
      [reflexivity | simpl; tauto | discriminate | reflexivity].
  - apply (Hswap' [] groceries rent []); [reflexivity | simpl; tauto | reflexivity].
  - apply (Hfirst groceries [rent]); reflexivity.
  - apply (Hlast [groceries] rent); [reflexivity | reflexivity |].
    simpl. intuition discriminate.
Defined.

(** ** Copying the plan to the next month *)

Lemma lookup_copied env (cats : list Category.t) k c :
  cats !! k = Some c ->
  imap (copyCategory env) cats !! k
  = Some (Category.mk (randomId env k) (Category.name c) (Category.icon c)
            (Category.allocatedAmount c) []).
Proof. intros H. now rewrite list_lookup_imap, H. Qed.

(** The copies carry the identifiers drawn for them: distinct draws give
    distinct ids. *)
Lemma copied_ids_unique env (cats : list Category.t) :
  (forall a b : nat, randomId env a = randomId env b -> a = b) ->
  NoDup (map Category.id (imap (copyCategory env) cats)).
Proof.
  intros Hinj. apply NoDup_alt. intros a b x Ha Hb.
  rewrite lookup_map, list_lookup_imap in Ha, Hb.
  destruct (cats !! a); [| discriminate]. destruct (cats !! b); [| discriminate].
  simpl in Ha, Hb. apply Hinj. congruence.
Qed.

(** C8: from a month at a position below 11, with the overwrite of a
    started next month confirmed, copy-plan puts in the place of the next
    month a month that is ACTIVE, has the [totalBudget] and the note of
    the source month and, envelope by envelope, the names, icons and
    allocations of the source month, under the identifiers newly drawn and
    with no transactions; from position 11 it reports that it is
    unsupported and leaves the ledger as it is. *)
Theorem copyPlan_copies_envelopes numberToString env confirmed y sel :
  (forall cur next,
     (sel < 11)%nat ->
     BudgetYear.months y !! sel = Some cur ->
     BudgetYear.months y !! S sel = Some next ->
     MonthBudget.status next = NOT_STARTED \/ confirmed = true ->
     exists next',
       handleCopyPlan env confirmed y sel
         = Copied (BudgetYear.mk (BudgetYear.year y)
                     (<[S sel := next']> (BudgetYear.months y))) (S sel) /\
       BudgetYear.months (yearData (perform numberToString env (CopyPlan confirmed)
                                      (mkState y sel))) !! S sel = Some next' /\
       (forall k, k <> S sel ->
          BudgetYear.months (yearData (perform numberToString env (CopyPlan confirmed)
                                         (mkState y sel))) !! k
          = BudgetYear.months y !! k) /\
       MonthBudget.status next' = ACTIVE /\
       MonthBudget.totalBudget next' = MonthBudget.totalBudget cur /\
       MonthBudget.note next' = MonthBudget.note cur /\
       MonthBudget.monthIndex next' = MonthBudget.monthIndex next /\
       MonthBudget.year next' = MonthBudget.year next /\
       length (MonthBudget.categories next') = length (MonthBudget.categories cur) /\
       (forall k c,
          MonthBudget.categories cur !! k = Some c ->
          MonthBudget.categories next' !! k
          = Some (Category.mk (randomId env k) (Category.name c) (Category.icon c)
                    (Category.allocatedAmount c) []))) /\
  ((11 <= sel)%nat ->
   handleCopyPlan env confirmed y sel = Unsupported /\
   perform numberToString env (CopyPlan confirmed) (mkState y sel) = mkState y sel).
Proof.
  split.
  - intros cur next Hsel Hcur Hnext Hgate.
    assert (Hrun : handleCopyPlan env confirmed y sel
              = Copied (BudgetYear.mk (BudgetYear.year y)
                  (<[S sel :=
                      MonthBudget.mk (MonthBudget.monthIndex next)
                        (MonthBudget.year next) ACTIVE (MonthBudget.totalBudget cur)
                        (MonthBudget.note cur)
                        (imap (copyCategory env) (MonthBudget.categories cur))]>
                     (BudgetYear.months y))) (S sel)).
    { unfold handleCopyPlan. rewrite Nat.add_1_r.
      destruct (Nat.ltb_spec 11 (S sel)); [lia |].
      rewrite Hnext, Hcur.
      destruct Hgate as [-> | ->]; simpl; [reflexivity |].
      now rewrite andb_false_r. }
    eexists. split; [exact Hrun |].
    unfold perform. cbn [yearData selectedMonthIndex]. rewrite Hrun.
    cbn [yearData BudgetYear.months].
    split; [| split].
    + apply list_lookup_insert_eq. eapply lookup_lt_Some, Hnext.
    + intros k Hk. now apply list_lookup_insert_ne.
    + repeat split.
      * apply length_imap.
      * intros k c. apply lookup_copied.
  - intros Hsel.
    assert (Hrun : handleCopyPlan env confirmed y sel = Unsupported).
    { unfold handleCopyPlan. rewrite Nat.add_1_r.
      destruct (Nat.ltb_spec 11 (S sel)); [reflexivity | lia]. }
    split; [exact Hrun |].
    unfold perform. cbn [yearData selectedMonthIndex]. now rewrite Hrun.
Qed.

Lemma copyPlan_copies_envelopes_witness :
  (exists next',
     handleCopyPlan sampleEnv false sampleYear 0
       = Copied (BudgetYear.mk 2026 (<[1%nat := next']> (BudgetYear.months sampleYear)))
           1 /\
     MonthBudget.status next' = ACTIVE /\
     MonthBudget.totalBudget next' = ofZ 1600 /\
     MonthBudget.categories next'
       = [Category.mk "k0" "Groceries" "Groceries" (ofZ 400) [];
          Category.mk "k1" "Rent" "Rent" (ofZ 1200) []]) /\
  handleCopyPlan sampleEnv false sampleYear 11 = Unsupported.
Proof.
  split.
  - destruct (copyPlan_copies_envelopes plainToString sampleEnv false sampleYear 0)
      as [Hcopy _].
    destruct (Hcopy january (defaultMonth 2026 1)) as (next' & Hrun & _);
      [lia | reflexivity | reflexivity | left; reflexivity |].
    exists next'. split; [exact Hrun |].
    vm_compute in Hrun. injection Hrun as <-. repeat split; reflexivity.
  - destruct (copyPlan_copies_envelopes plainToString sampleEnv false sampleYear 11)
      as [_ Hlast].
    apply Hlast. lia.
Defined.

(** ** A transfer from an envelope to itself *)



(** * Further properties of the handlers *)

(** ** Names made of white space *)








(** ** Adding an envelope *)





(** ** Sums of a measure over the envelopes *)

Section Measure.

Variable g : Category.t -> number.

Local Abbreviation total l acc := (fold_left (fun a c => nadd a (g c)) l acc).

Lemma measure_acc l acc : total l acc = nadd acc (total l zero).
Proof.
  revert acc. induction l as [| c l IH]; intros acc; cbn [fold_left].
  - now rewrite nadd_zero_r.
  - rewrite IH, (IH (nadd zero _)), nadd_zero_l. symmetry. apply nadd_assoc.
Qed.

Lemma measure_cons c l : total (c :: l) zero = nadd (g c) (total l zero).
Proof. cbn [fold_left]. now rewrite measure_acc, nadd_zero_l. Qed.

Lemma measure_app l1 l2 :
  total (l1 ++ l2) zero = nadd (total l1 zero) (total l2 zero).
Proof. rewrite fold_left_app. apply measure_acc. Qed.

(** A map that keeps the measure of every envelope keeps the sum. *)
Lemma measure_map_same (f : Category.t -> Category.t) l :
  (forall c, g (f c) = g c) -> total (map f l) zero = total l zero.
Proof.
  intros Hf. induction l as [| c l IH]; [reflexivity |].
  cbn [map]. now rewrite !measure_cons, IH, Hf.
Qed.



End Measure.

(** ** What is spent *)

Lemma getCategorySpent_append c t a :
  getCategorySpent
    (Category.mk (Category.id c) (Category.name c) (Category.icon c) a
       (Category.transactions c ++ [t]))
  = if isExpense t then nadd (getCategorySpent c) (Transaction.amount t)
    else getCategorySpent c.
Proof.
  unfold getCategorySpent. simpl. rewrite List.filter_app. simpl.
  destruct (isExpense t); simpl.
  - now rewrite fold_left_app.
  - now rewrite app_nil_r.
Qed.





(** X4: a top-up and a transfer spend nothing: whatever the selection and the
    form, what is spent on each envelope and in the month is after the
    handler what it was before. *)
Theorem allocation_moves_spend_nothing numberToString env sel tform xform m :
  let m1 := after (handleTopUp numberToString env sel tform m) m in
  let m2 := after (handleTransfer env sel xform m) m in
  map getCategorySpent (MonthBudget.categories m1)
    = map getCategorySpent (MonthBudget.categories m) /\
  getTotalSpent m1 = getTotalSpent m /\
  map getCategorySpent (MonthBudget.categories m2)
    = map getCategorySpent (MonthBudget.categories m) /\
  getTotalSpent m2 = getTotalSpent m.
Proof.
  assert (Hmap : forall f : Category.t -> Category.t,
            (forall c, getCategorySpent (f c) = getCategorySpent c) ->
            map getCategorySpent (map f (MonthBudget.categories m))
            = map getCategorySpent (MonthBudget.categories m)).
  { intros f Hf. rewrite map_map. apply map_ext. exact Hf. }
  assert (Htop : forall sel0 a t, isExpense t = false ->
            forall c, getCategorySpent (topUpUpdate sel0 a t c) = getCategorySpent c).
  { intros sel0 a t Ht c. unfold topUpUpdate, withAllocation.
    destruct (hasId _ c); [| reflexivity].
    now rewrite getCategorySpent_append, Ht. }
  assert (Htr : forall X sel0 a t1 t2, isExpense t1 = false -> isExpense t2 = false ->
            forall c, getCategorySpent (transferUpdate X sel0 a t1 t2 c)
                      = getCategorySpent c).
  { intros X sel0 a t1 t2 H1 H2 c. unfold transferUpdate, withAllocation.
    destruct (hasId _ c); [now rewrite getCategorySpent_append, H1 |].
    destruct (hasId _ c); [| reflexivity].
    now rewrite getCategorySpent_append, H2. }
  intros m1 m2. subst m1 m2. split; [| split; [| split]].
  - unfold handleTopUp. destruct sel; [| reflexivity].
    destruct (isEmpty _); [reflexivity |]. simpl. apply Hmap. now apply Htop.
  - unfold handleTopUp. destruct sel; [| reflexivity].
    destruct (isEmpty _); [reflexivity |]. simpl.
    apply (measure_map_same getCategorySpent). now apply Htop.
  - unfold handleTransfer. destruct sel; [| reflexivity].
    destruct (_ || _); [reflexivity |].
    destruct (List.find _ _); [| reflexivity]. simpl. apply Hmap. now apply Htr.
  - unfold handleTransfer. destruct sel; [| reflexivity].
    destruct (_ || _); [reflexivity |].
    destruct (List.find _ _); [| reflexivity]. simpl.
    apply (measure_map_same getCategorySpent). now apply Htr.
Qed.

(** ** The history of an envelope *)

Lemma moveCategory_some id direction m m' :
  moveCategory id direction m = Some m' ->
  Permutation (MonthBudget.categories m') (MonthBudget.categories m) /\
  m' = withCategories m (MonthBudget.categories m').
Proof.
  unfold moveCategory, spliceOut, spliceIn.
  destruct (_ <? 0); [discriminate |].
  destruct (_ || _); [discriminate |].
  destruct (MonthBudget.categories m !! _) as [x|] eqn:Hx; [| discriminate].
  intros H. injection H as <-. simpl. split; [| reflexivity].
  now apply splice_permutation.
Qed.

(** X5: apart from setup and deletion, no handler drops or rewrites what is
    recorded: every envelope of the month is still there afterwards under
    the same id, name and icon, and the transactions it had are the first
    of those it has, in the same order. *)
Theorem history_is_append_only numberToString env a m m' c :
  onMonth numberToString env a m = Some m' ->
  kindOf a <> KFinalizeSetup ->
  kindOf a <> KDeleteCategory ->
  In c (MonthBudget.categories m) ->
  exists c' added,
    In c' (MonthBudget.categories m') /\
    Category.id c' = Category.id c /\
    Category.name c' = Category.name c /\
    Category.icon c' = Category.icon c /\
    Category.transactions c' = Category.transactions c ++ added /\
    (length added <= 1)%nat.
Proof.
  intros Hrun Hk1 Hk2 Hin.
  assert (Hsame : forall cats, In c cats ->
            exists c' added, In c' cats /\ Category.id c' = Category.id c /\
              Category.name c' = Category.name c /\
              Category.icon c' = Category.icon c /\
              Category.transactions c' = Category.transactions c ++ added /\
              (length added <= 1)%nat).
  { intros cats H. exists c, []. rewrite app_nil_r. simpl. repeat split; auto. }
  assert (Hmap : forall f : Category.t -> Category.t,
            (forall x, f x = x \/
               exists t a0, f x = Category.mk (Category.id x) (Category.name x)
                                    (Category.icon x) a0 (Category.transactions x ++ [t])) ->
            exists c' added, In c' (map f (MonthBudget.categories m)) /\
              Category.id c' = Category.id c /\
              Category.name c' = Category.name c /\
              Category.icon c' = Category.icon c /\
              Category.transactions c' = Category.transactions c ++ added /\
              (length added <= 1)%nat).
  { intros f Hf. destruct (Hf c) as [E | (t & a0 & E)].
    - exists c, []. rewrite app_nil_r. simpl. repeat split; auto.
      rewrite <- E at 1. now apply in_map.
    - exists (f c), [t]. split; [now apply in_map |]. rewrite E. simpl.
      repeat split; auto. }
  destruct a; simpl in Hrun, Hk1, Hk2; try congruence.
  - unfold handleAddNewCategory in Hrun.
    destruct (isEmpty _); [discriminate |]. injection Hrun as <-. simpl.
    apply Hsame, in_or_app. now left.
  - apply moveCategory_some in Hrun as [Hperm _]. apply Hsame.
    eapply Permutation_in; [symmetry; exact Hperm | exact Hin].
  - unfold addExpense in Hrun. destruct selectedCategory; [| discriminate].
    destruct (isEmpty _); [discriminate |]. injection Hrun as <-. simpl.
    apply Hmap. intros x. unfold expenseUpdate, withTransaction.
    destruct (hasId _ x); eauto.
  - unfold handleTopUp in Hrun. destruct selectedCategory; [| discriminate].
    destruct (isEmpty _); [discriminate |]. injection Hrun as <-. simpl.
    apply Hmap. intros x. unfold topUpUpdate, withAllocation.
    destruct (hasId _ x); eauto.
  - unfold handleTransfer in Hrun. destruct selectedCategory; [| discriminate].
    destruct (_ || _); [discriminate |].
    destruct (List.find _ _); [| discriminate]. injection Hrun as <-. simpl.
    apply Hmap. intros x. unfold transferUpdate, withAllocation.
    destruct (hasId _ x); [eauto |]. destruct (hasId _ x); eauto.
  - injection Hrun as <-. simpl. now apply Hsame.
  - injection Hrun as <-. simpl. now apply Hsame.
Qed.

Lemma history_is_append_only_witness :
  exists m' c' added,
    handleTransfer sampleEnv (Some groceries) transferForm100 january = Some m' /\
    In c' (MonthBudget.categories m') /\
    Category.id c' = Category.id rent /\
    Category.transactions c' = Category.transactions rent ++ added /\
    (length added <= 1)%nat.
Proof.
  destruct (handleTransfer sampleEnv (Some groceries) transferForm100 january)
    as [m'|] eqn:Hrun; [| discriminate Hrun].
  destruct (history_is_append_only plainToString sampleEnv
              (Transfer (Some groceries) transferForm100) january m' rent)
    as (c' & added & Hin & Hid & _ & _ & Htx & Hlen);
    [ exact Hrun | discriminate | discriminate | right; left; reflexivity | ].
  exists m', c', added. auto.
Defined.

(** ** Reordering there and back *)

Lemma ids_apart (l1 : list Category.t) a b l2 :
  NoDup (map Category.id (l1 ++ a :: b :: l2)) ->
  ~ In (Category.id a) (map Category.id l1) /\
  ~ In (Category.id b) (map Category.id l1) /\
  Category.id a <> Category.id b.
Proof.
  rewrite map_app. simpl. intros H.
  apply NoDup_app in H as (_ & Hsep & Hrest).
  pose proof (NoDup_cons_1_1 _ _ Hrest) as Hab.
  split; [| split].
  - intros Hin. apply list_elem_of_In in Hin. apply (Hsep _ Hin). now left.
  - intros Hin. apply list_elem_of_In in Hin. apply (Hsep _ Hin). right. now left.
  - intros E. apply Hab. rewrite E. now left.
Qed.

(** X6: in a month with unique ids, moving an envelope up and then down, or
    down and then up, gives back the month as it was. *)
Theorem move_there_and_back m l1 a b l2 :
  MonthBudget.categories m = l1 ++ a :: b :: l2 ->
  NoDup (map Category.id (MonthBudget.categories m)) ->
  (exists m1, moveCategory (Category.id b) UP m = Some m1 /\
              MonthBudget.categories m1 = l1 ++ b :: a :: l2 /\
              moveCategory (Category.id b) DOWN m1 = Some m) /\
  (exists m1, moveCategory (Category.id a) DOWN m = Some m1 /\
              MonthBudget.categories m1 = l1 ++ b :: a :: l2 /\
              moveCategory (Category.id a) UP m1 = Some m).
Proof.
  intros Hcats Hnd. rewrite Hcats in Hnd.
  destruct (ids_apart _ _ _ _ Hnd) as (Ha & Hb & Hab).
  assert (Hback : withCategories (withCategories m (l1 ++ b :: a :: l2))
                    (l1 ++ a :: b :: l2) = m).
  { rewrite <- Hcats. now destruct m. }
  split.
  - exists (withCategories m (l1 ++ b :: a :: l2)).
    destruct (moveCategory_swaps (Category.id b) m l1 a b l2 Hcats Hb) as [Hup _].
    split; [now apply Hup |]. split; [reflexivity |].
    destruct (moveCategory_swaps (Category.id b)
                (withCategories m (l1 ++ b :: a :: l2)) l1 b a l2 eq_refl Hb)
      as [_ Hdown].
    rewrite Hdown; [now rewrite Hback | reflexivity].
  - exists (withCategories m (l1 ++ b :: a :: l2)).
    destruct (moveCategory_swaps (Category.id a) m l1 a b l2 Hcats Ha) as [_ Hdown].
    split; [now apply Hdown |]. split; [reflexivity |].
    destruct (moveCategory_swaps (Category.id a)
                (withCategories m (l1 ++ b :: a :: l2)) l1 b a l2 eq_refl Ha)
      as [Hup _].
    rewrite Hup; [now rewrite Hback | congruence | reflexivity].
Qed.

Lemma move_there_and_back_witness :
  (exists m1, moveCategory "r0x8m4b1z" UP january = Some m1 /\
              moveCategory "r0x8m4b1z" DOWN m1 = Some january) /\
  (exists m1, moveCategory "g7f3k2a9q" DOWN january = Some m1 /\
              moveCategory "g7f3k2a9q" UP m1 = Some january).
Proof.
  destruct (move_there_and_back january [] groceries rent [] eq_refl
              january_ids_unique) as [(m1 & H1 & _ & H2) (m2 & H3 & _ & H4)].
  split; [exists m1 | exists m2]; split; assumption.
Defined.

(** ** Ids that name no envelope *)

Lemma findIndex_absent {A} (p : A -> bool) l :
  (forall y, In y l -> p y = false) -> findIndex p l = -1.
Proof.
  induction l as [| x l IH]; intros H; simpl; [reflexivity |].
  rewrite (H x) by (simpl; tauto).
  rewrite IH by (intros y Hy; apply H; simpl; tauto). reflexivity.
Qed.

(** X7: given an id that names no envelope of the month, reordering and
    deletion return without an update, and so does a transfer whose source
    field holds that id. *)
Theorem unknown_id_does_nothing env confirmed direction sel form id m :
  ~ In id (idsOf m) ->
  moveCategory id direction m = None /\
  deleteCategory confirmed id m = None /\
  (TransferForm.fromCategoryId form = id -> handleTransfer env sel form m = None).
Proof.
  intros Hid. split; [| split].
  - unfold moveCategory. rewrite findIndex_absent; [reflexivity |].
    now apply no_id_no_match.
  - unfold deleteCategory. destruct (negb confirmed); [reflexivity |].
    now rewrite find_hasId_absent.
  - intros <-. unfold handleTransfer. destruct sel; [| reflexivity].
    destruct (_ || _); [reflexivity |]. now rewrite find_hasId_absent.
Qed.

Lemma unknown_id_does_nothing_witness :
  moveCategory "zzz" UP january = None /\
  deleteCategory true "zzz" january = None /\
  handleTransfer sampleEnv (Some groceries) (TransferForm.mk "10" "zzz" "") january
    = None.
Proof.
  destruct (unknown_id_does_nothing sampleEnv true UP (Some groceries)
              (TransferForm.mk "10" "zzz" "") "zzz" january) as (H1 & H2 & H3).
  - vm_compute. intuition discriminate.
  - split; [exact H1 |]. split; [exact H2 |]. now apply H3.
Defined.

(** ** A selected envelope that is no longer in the month *)

Lemma withCategoriesTotal_same m total :
  withCategoriesTotal m (MonthBudget.categories m) total = withTotal m total.
Proof. reflexivity. Qed.

(** X8: when the selected envelope is not in the month, an expense replaces
    the month by itself, and a top-up still raises the budget of the month
    by the parsed amount although no envelope receives it. *)
Theorem stale_selection numberToString env sel eform tform m :
  ~ In (Category.id sel) (idsOf m) ->
  ExpenseForm.amount eform <> "" ->
  TopUpForm.amount tform <> "" ->
  addExpense env (Some sel) eform m = Some m /\
  handleTopUp numberToString env (Some sel) tform m
    = Some (withTotal m (nadd (MonthBudget.totalBudget m)
                           (parseFloat (TopUpForm.amount tform)))).
Proof.
  intros Hsel He Ht. split.
  - rewrite (addExpense_runs _ _ _ _ He).
    rewrite (map_untouched _ (Category.id sel)); [now rewrite withCategories_same | | exact Hsel].
    intros c Hc. unfold expenseUpdate. now rewrite (proj2 (hasId_false _ _) Hc).
  - rewrite (handleTopUp_runs _ _ _ _ _ Ht).
    rewrite (map_untouched _ (Category.id sel)); [reflexivity | | exact Hsel].
    intros c Hc. unfold topUpUpdate. now rewrite (proj2 (hasId_false _ _) Hc).
Qed.

Lemma stale_selection_witness :
  handleTopUp plainToString sampleEnv
    (Some (Category.mk "gone" "Old" "Old" zero [])) topUpForm20 january
  = Some (MonthBudget.mk 0 2026 ACTIVE (ofZ 1620) (Some "Salary") [groceries; rent]).
Proof.
  destruct (stale_selection plainToString sampleEnv
              (Category.mk "gone" "Old" "Old" zero [])
              (ExpenseForm.mk "5" "" "2026-01-15") topUpForm20 january)
    as [_ Htop].
  - vm_compute. intuition discriminate.
  - discriminate.
  - discriminate.
  - rewrite Htop. reflexivity.
Defined.



(** ** What setup stores *)







(** ** The year under the handlers *)

Lemma lookup_updateMonth sel m' y i :
  BudgetYear.months (updateMonth sel m' y) !! i
  = if decide (i = sel) then (fun _ => m') <$> (BudgetYear.months y !! i)
    else BudgetYear.months y !! i.
Proof.
  unfold updateMonth. simpl. rewrite list_lookup_imap.
  destruct (BudgetYear.months y !! i) as [m|]; simpl.
  - destruct (decide (i = sel)) as [->|Hne].
    + now rewrite Nat.eqb_refl.
    + apply Nat.eqb_neq in Hne. now rewrite Hne.
  - now destruct (decide (i = sel)).
Qed.

(** The month copy-plan writes. *)
Lemma handleCopyPlan_cases env confirmed y sel :
  (exists updated next, handleCopyPlan env confirmed y sel = Copied updated next) ->
  exists cur next,
    (sel < 11)%nat /\
    BudgetYear.months y !! sel = Some cur /\
    BudgetYear.months y !! S sel = Some next /\
    handleCopyPlan env confirmed y sel
    = Copied (BudgetYear.mk (BudgetYear.year y)
                (<[S sel :=
                    MonthBudget.mk (MonthBudget.monthIndex next)
                      (MonthBudget.year next) ACTIVE (MonthBudget.totalBudget cur)
                      (MonthBudget.note cur)
                      (imap (copyCategory env) (MonthBudget.categories cur))]>
                   (BudgetYear.months y))) (S sel).
Proof.
  unfold handleCopyPlan. rewrite Nat.add_1_r.
  destruct (Nat.ltb_spec 11 (S sel)); [intros (? & ? & ?); discriminate |].
  destruct (BudgetYear.months y !! S sel) as [next|]; [| intros (? & ? & ?); discriminate].
  destruct (_ && _); [intros (? & ? & ?); discriminate |].
  destruct (BudgetYear.months y !! sel) as [cur|]; [| intros (? & ? & ?); discriminate].
  intros _. exists cur, next. repeat split; auto; lia.
Qed.

(** How a handler leaves the state: as it was, with the selected month
    replaced by what its month handler returned, or with the next month
    replaced by the copy and selected. *)
Lemma perform_cases numberToString env a s :
  perform numberToString env a s = s \/
  (exists m m',
     BudgetYear.months (yearData s) !! selectedMonthIndex s = Some m /\
     onMonth numberToString env a m = Some m' /\
     perform numberToString env a s
     = mkState (updateMonth (selectedMonthIndex s) m' (yearData s))
         (selectedMonthIndex s)) \/
  (exists confirmed cur next,
     a = CopyPlan confirmed /\
     (selectedMonthIndex s < 11)%nat /\
     BudgetYear.months (yearData s) !! selectedMonthIndex s = Some cur /\
     BudgetYear.months (yearData s) !! S (selectedMonthIndex s) = Some next /\
     perform numberToString env a s
     = mkState
         (BudgetYear.mk (BudgetYear.year (yearData s))
            (<[S (selectedMonthIndex s) :=
                MonthBudget.mk (MonthBudget.monthIndex next)
                  (MonthBudget.year next) ACTIVE (MonthBudget.totalBudget cur)
                  (MonthBudget.note cur)
                  (imap (copyCategory env) (MonthBudget.categories cur))]>
               (BudgetYear.months (yearData s))))
         (S (selectedMonthIndex s))).
Proof.
  assert (Hmonth :
    match BudgetYear.months (yearData s) !! selectedMonthIndex s with
    | None => s
    | Some currentMonth =>
        match onMonth numberToString env a currentMonth with
        | Some updatedMonth =>
            mkState (updateMonth (selectedMonthIndex s) updatedMonth (yearData s))
              (selectedMonthIndex s)
        | None => s
        end
    end = s \/
    exists m m',
      BudgetYear.months (yearData s) !! selectedMonthIndex s = Some m /\
      onMonth numberToString env a m = Some m' /\
      match BudgetYear.months (yearData s) !! selectedMonthIndex s with
      | None => s
      | Some currentMonth =>
          match onMonth numberToString env a currentMonth with
          | Some updatedMonth =>
              mkState (updateMonth (selectedMonthIndex s) updatedMonth (yearData s))
                (selectedMonthIndex s)
          | None => s
          end
      end = mkState (updateMonth (selectedMonthIndex s) m' (yearData s))
             (selectedMonthIndex s)).
  { destruct (BudgetYear.months (yearData s) !! selectedMonthIndex s) as [m|];
      [| now left].
    destruct (onMonth numberToString env a m) as [m'|] eqn:Hon; [| now left].
    right. eauto. }
  destruct a; try (destruct Hmonth as [H | H]; [left; exact H | right; left; exact H]).
  unfold perform.
  destruct (handleCopyPlan env confirmed (yearData s) (selectedMonthIndex s))
    as [| | | updated next] eqn:Hcopy; try (now left).
  right. right.
  destruct (handleCopyPlan_cases env confirmed (yearData s) (selectedMonthIndex s))
    as (cur & nxt & Hlt & Hcur & Hnext & Hrun); [eauto |].
  rewrite Hrun in Hcopy. injection Hcopy as <- <-.
  exists confirmed, cur, nxt. auto.
Qed.

Lemma onMonth_not_copy numberToString env a m m' :
  onMonth numberToString env a m = Some m' -> targetIndex a = selectedMonthIndex.
Proof. destruct a; try reflexivity. discriminate. Qed.

(** X11: a handler writes one month at most: the selected one, or the next one
    for copy-plan. Every other month of the year is as it was, the year
    keeps its number and its length, and the selection only moves, by one,
    with a copy. *)
Theorem perform_writes_one_month numberToString env a s i :
  i <> targetIndex a s ->
  monthAt i (perform numberToString env a s) = monthAt i s /\
  length (BudgetYear.months (yearData (perform numberToString env a s)))
    = length (BudgetYear.months (yearData s)) /\
  BudgetYear.year (yearData (perform numberToString env a s))
    = BudgetYear.year (yearData s) /\
  (selectedMonthIndex (perform numberToString env a s) = selectedMonthIndex s \/
   selectedMonthIndex (perform numberToString env a s) = targetIndex a s).
Proof.
  intros Hi.
  destruct (perform_cases numberToString env a s)
    as [-> | [(m & m' & Hm & Hon & ->) | (cf & cur & next & -> & Hlt & Hcur & Hnext & ->)]].
  - auto.
  - rewrite (onMonth_not_copy _ _ _ _ _ Hon) in Hi.
    unfold monthAt. simpl. rewrite list_lookup_imap, length_imap.
    repeat split; auto.
    destruct (BudgetYear.months (yearData s) !! i); [| reflexivity]. simpl.
    apply Nat.eqb_neq in Hi. now rewrite Hi.
  - unfold monthAt. simpl in *. rewrite length_insert.
    repeat split; auto. now apply list_lookup_insert_ne.
Qed.

Lemma perform_writes_one_month_witness :
  monthAt 1 (perform plainToString sampleEnv
               (Transfer (Some groceries) transferForm100) sampleState)
    = monthAt 1 sampleState /\
  monthAt 0 (perform plainToString sampleEnv (CopyPlan true) sampleState)
    = Some january.
Proof.
  split.
  - apply (perform_writes_one_month plainToString sampleEnv
             (Transfer (Some groceries) transferForm100) sampleState 1).
    simpl. lia.
  - destruct (perform_writes_one_month plainToString sampleEnv (CopyPlan true)
                sampleState 0) as [H _]; [simpl; lia |].
    rewrite H. reflexivity.
Defined.

(** A month handler keeps the place and the year of the month, and a
    month that was started stays started. *)
Lemma onMonth_keeps numberToString env a m m' :
  onMonth numberToString env a m = Some m' ->
  MonthBudget.monthIndex m' = MonthBudget.monthIndex m /\
  MonthBudget.year m' = MonthBudget.year m /\
  (MonthBudget.status m <> NOT_STARTED -> MonthBudget.status m' <> NOT_STARTED).
Proof.
  destruct a; simpl; intros H.
  - unfold finalizeSetup in H. destruct (_ =? _)%nat; [discriminate |].
    injection H as <-. simpl. split; [| split]; auto; discriminate.
  - unfold handleAddNewCategory in H. destruct (isEmpty _); [discriminate |].
    injection H as <-. auto.
  - unfold deleteCategory in H. destruct (negb _); [discriminate |].
    destruct (List.find _ _); [| discriminate]. injection H as <-. auto.
  - apply moveCategory_some in H as [_ ->]. auto.
  - unfold addExpense in H. destruct selectedCategory; [| discriminate].
    destruct (isEmpty _); [discriminate |]. injection H as <-. auto.
  - unfold handleTopUp in H. destruct selectedCategory; [| discriminate].
    destruct (isEmpty _); [discriminate |]. injection H as <-. auto.
  - unfold handleTransfer in H. destruct selectedCategory; [| discriminate].
    destruct (_ || _); [discriminate |].
    destruct (List.find _ _); [| discriminate]. injection H as <-. auto.
  - injection H as <-. simpl. split; [| split]; auto.
    intros _. destruct (statusEqb _ _); discriminate.
  - injection H as <-. auto.
  - discriminate.
Qed.

Lemma perform_wellFormed numberToString env a year s :
  wellFormed year s -> wellFormed year (perform numberToString env a s).
Proof.
  intros (Hlen & Hsel & Hyear & Hmonths).
  destruct (perform_cases numberToString env a s)
    as [-> | [(m & m' & Hm & Hon & ->) | (cf & cur & next & -> & Hlt & Hcur & Hnext & ->)]].
  - repeat split; auto; apply (Hmonths i m); assumption.
  - unfold wellFormed. simpl. rewrite length_imap.
    split; [exact Hlen |]. split; [exact Hsel |]. split; [exact Hyear |].
    intros i x Hx. rewrite list_lookup_imap in Hx.
    destruct (BudgetYear.months (yearData s) !! i) as [x0|] eqn:Hi; [| discriminate].
    simpl in Hx. destruct (i =? selectedMonthIndex s)%nat eqn:E.
    + apply Nat.eqb_eq in E. subst i. injection Hx as <-.
      destruct (onMonth_keeps _ _ _ _ _ Hon) as (Hidx & Hy & _).
      rewrite Hidx, Hy. apply Hmonths. congruence.
    + injection Hx as <-. now apply Hmonths.
  - unfold wellFormed. simpl. rewrite length_insert.
    split; [exact Hlen |]. split; [lia |]. split; [exact Hyear |].
    intros i x Hx.
    destruct (decide (i = S (selectedMonthIndex s))) as [-> | Hne].
    + rewrite list_lookup_insert_eq in Hx by (eapply lookup_lt_Some, Hnext).
      injection Hx as <-. simpl. now apply Hmonths.
    + rewrite list_lookup_insert_ne in Hx by auto. now apply Hmonths.
Qed.

Lemma defaultYearData_wellFormed year sel :
  (sel <= 11)%nat -> wellFormed year (mkState (defaultYearData year) sel).
Proof.
  intros Hsel. repeat split; auto; simpl in *;
    do 12 (destruct i as [| i]; [injection H as <-; reflexivity |]); discriminate.
Qed.

Lemma run_wellFormed numberToString acts year s :
  wellFormed year s -> wellFormed year (run numberToString acts s).
Proof.
  unfold run. revert s. induction acts as [| [env a] acts IH]; intros s Hs; simpl.
  - exact Hs.
  - apply IH. now apply perform_wellFormed.
Qed.

(** X12: however many handlers have run on the default year of
    [loadLocalYearData], the year has its twelve months, each at its place
    with its index and year, a month of the year is selected, and copy-plan
    finds the months it reads: it never ends on an undefined month. *)
Theorem default_year_stays_well_formed numberToString acts year sel env confirmed :
  (sel <= 11)%nat ->
  let s := run numberToString acts (mkState (defaultYearData year) sel) in
  wellFormed year s /\
  is_Some (monthAt (selectedMonthIndex s) s) /\
  handleCopyPlan env confirmed (yearData s) (selectedMonthIndex s) <> Thrown.
Proof.
  intros Hsel s.
  assert (Hwf : wellFormed year s)
    by now apply run_wellFormed, defaultYearData_wellFormed.
  split; [exact Hwf |]. destruct Hwf as (Hlen & Hs & _ & _).
  assert (Hcur : is_Some (BudgetYear.months (yearData s) !! selectedMonthIndex s)).
  { apply lookup_lt_is_Some. lia. }
  split; [exact Hcur |].
  unfold handleCopyPlan. rewrite Nat.add_1_r.
  destruct (Nat.ltb_spec 11 (S (selectedMonthIndex s))); [discriminate |].
  destruct (lookup_lt_is_Some_2 (BudgetYear.months (yearData s))
              (S (selectedMonthIndex s))) as [next ->]; [lia |].
  destruct (_ && _); [discriminate |].
  destruct Hcur as [cur ->]. discriminate.
Qed.

Lemma default_year_stays_well_formed_witness :
  let s := run plainToString scenarioActions (mkState (defaultYearData 2026) 0) in
  wellFormed 2026 s /\
  handleCopyPlan sampleEnv false (yearData s) (selectedMonthIndex s) <> Thrown.
Proof.
  destruct (default_year_stays_well_formed plainToString scenarioActions 2026 0
              sampleEnv false) as (Hwf & _ & Hcopy); [lia |].
  split; assumption.
Defined.

Lemma perform_started numberToString env a s i m :
  monthAt i s = Some m -> MonthBudget.status m <> NOT_STARTED ->
  exists m', monthAt i (perform numberToString env a s) = Some m' /\
             MonthBudget.status m' <> NOT_STARTED.
Proof.
  unfold monthAt. intros Hm Hst.
  destruct (perform_cases numberToString env a s)
    as [-> | [(m0 & m' & Hm0 & Hon & ->) | (cf & cur & next & -> & Hlt & Hcur & Hnext & ->)]].
  - eauto.
  - simpl. rewrite list_lookup_imap, Hm. simpl.
    destruct (i =? selectedMonthIndex s)%nat eqn:E; [| eauto].
    apply Nat.eqb_eq in E. subst i. exists m'. split; [reflexivity |].
    apply (onMonth_keeps _ _ _ _ _ Hon). congruence.
  - simpl. destruct (decide (i = S (selectedMonthIndex s))) as [-> | Hne].
    + rewrite list_lookup_insert_eq by (eapply lookup_lt_Some, Hnext).
      eexists. split; [reflexivity |]. discriminate.
    + rewrite list_lookup_insert_ne by auto. eauto.
Qed.

(** X13: no handler, and no sequence of handlers, takes a month back to
    NOT_STARTED: a month that was set up is ACTIVE or COMPLETED ever
    after. *)
Theorem started_months_stay_started numberToString acts s i m :
  monthAt i s = Some m ->
  MonthBudget.status m <> NOT_STARTED ->
  exists m', monthAt i (run numberToString acts s) = Some m' /\
             MonthBudget.status m' <> NOT_STARTED.
Proof.
  unfold run. revert s m. induction acts as [| [env a] acts IH]; intros s m Hm Hst.
  - simpl. eauto.
  - simpl. destruct (perform_started numberToString env a s i m Hm Hst)
      as (m1 & Hm1 & Hst1).
    exact (IH _ m1 Hm1 Hst1).
Qed.

Lemma started_months_stay_started_witness :
  exists m', monthAt 0 (run plainToString
                          [(sampleEnv, ToggleStatus); (sampleEnv, ToggleStatus);
                           (sampleEnv, FinalizeSetup setupWithUnnamed "")]
                          sampleState) = Some m' /\
             MonthBudget.status m' <> NOT_STARTED.
Proof.
  apply (started_months_stay_started plainToString _ sampleState 0 january);
    [reflexivity | discriminate].
Defined.

(** ** Finalize and unlock *)

(** X14: the Finalize / Unlock button always goes through and touches the
    status only; the month is COMPLETED after it unless it was COMPLETED,
    in which case it is ACTIVE; pressed twice on a month that was started
    it gives back the month, and on a month that was not it leaves the
    month ACTIVE. *)
Theorem toggleStatus_twice m :
  exists m1 m2,
    toggleStatus m = Some m1 /\ toggleStatus m1 = Some m2 /\
    m1 = withStatus m (MonthBudget.status m1) /\
    (MonthBudget.status m = COMPLETED -> MonthBudget.status m1 = ACTIVE) /\
    (MonthBudget.status m <> COMPLETED -> MonthBudget.status m1 = COMPLETED) /\
    (MonthBudget.status m <> NOT_STARTED -> m2 = m) /\
    (MonthBudget.status m = NOT_STARTED -> MonthBudget.status m2 = ACTIVE).
Proof.
  destruct m as [idx y st total note cats].
  eexists _, _. split; [reflexivity |]. split; [reflexivity |].
  destruct st; simpl; repeat split; congruence.
Qed.

Lemma toggleStatus_twice_witness :
  exists m1 m2,
    toggleStatus january = Some m1 /\ toggleStatus m1 = Some m2 /\
    MonthBudget.status m1 = COMPLETED /\ m2 = january.
Proof.
  destruct (toggleStatus_twice january)
    as (m1 & m2 & H1 & H2 & _ & _ & Hc & Hback & _).
  exists m1, m2. split; [exact H1 |]. split; [exact H2 |].
  split; [apply Hc | apply Hback]; discriminate.
Defined.

(** ** What copy-plan leaves in the next month *)

Lemma totalAllocated_copied (g : nat -> string) cats acc :
  fold_left (fun a c => nadd a (Category.allocatedAmount c))
    (imap (fun i c => Category.mk (g i) (Category.name c) (Category.icon c)
                        (Category.allocatedAmount c) []) cats) acc
  = fold_left (fun a c => nadd a (Category.allocatedAmount c)) cats acc.
Proof.
  revert g acc. induction cats as [| c cats IH]; intros g acc; simpl.
  - reflexivity.
  - apply (IH (g ∘ S)).
Qed.

Lemma nothing_spent cats :
  Forall (fun c => Category.transactions c = []) cats ->
  fold_left (fun a c => nadd a (getCategorySpent c)) cats zero = zero.
Proof.
  induction 1 as [| c cats Hc _ IH]; [reflexivity |].
  cbn [fold_left]. unfold getCategorySpent at 2. rewrite Hc. simpl fold_left at 2.
  now rewrite nadd_zero_r.
Qed.

Lemma nothing_recorded cats :
  Forall (fun c => Category.transactions c = []) cats ->
  transactionCount cats = 0%nat.
Proof.
  induction 1 as [| c l Hc _ IH]; [reflexivity |].
  rewrite transactionCount_cons, Hc, IH. reflexivity.
Qed.

(** X15: when copy-plan goes through, the month it leaves at the next place has
    nothing recorded and nothing spent, its allocations sum to those of the
    source month, so that it is balanced when the source month is, and the
    source month is as it was. When the next month was started and the
    overwrite is not confirmed, the state is left as it is. *)
Theorem copied_month_is_fresh numberToString env confirmed s :
  (forall updated n,
     handleCopyPlan env confirmed (yearData s) (selectedMonthIndex s)
       = Copied updated n ->
     exists cur new,
       n = S (selectedMonthIndex s) /\
       BudgetYear.months (yearData s) !! selectedMonthIndex s = Some cur /\
       BudgetYear.months updated !! selectedMonthIndex s = Some cur /\
       BudgetYear.months updated !! n = Some new /\
       transactionCount (MonthBudget.categories new) = 0%nat /\
       getTotalSpent new = zero /\
       totalAllocated (MonthBudget.categories new)
         = totalAllocated (MonthBudget.categories cur) /\
       (balanced cur -> balanced new)) /\
  (forall next,
     (selectedMonthIndex s < 11)%nat ->
     BudgetYear.months (yearData s) !! S (selectedMonthIndex s) = Some next ->
     MonthBudget.status next <> NOT_STARTED ->
     confirmed = false ->
     perform numberToString env (CopyPlan confirmed) s = s).
Proof.
  split.
  - intros updated n Hrun.
    destruct (handleCopyPlan_cases env confirmed (yearData s) (selectedMonthIndex s))
      as (cur & next & Hlt & Hcur & Hnext & Hrun'); [eauto |].
    rewrite Hrun' in Hrun. injection Hrun as <- <-.
    assert (Halloc : totalAllocated (imap (copyCategory env) (MonthBudget.categories cur))
                     = totalAllocated (MonthBudget.categories cur))
      by apply (totalAllocated_copied (randomId env)).
    assert (Hempty : Forall (fun c => Category.transactions c = [])
                       (imap (copyCategory env) (MonthBudget.categories cur))).
    { apply Forall_lookup. intros k c Hk. rewrite list_lookup_imap in Hk.
      destruct (MonthBudget.categories cur !! k); [| discriminate].
      now injection Hk as <-. }
    eexists cur, _. split; [reflexivity |]. split; [exact Hcur |]. simpl.
    split; [rewrite list_lookup_insert_ne by lia; exact Hcur |].
    split; [apply list_lookup_insert_eq; eapply lookup_lt_Some, Hnext |].
    simpl. split; [| split; [| split]].
    + now apply nothing_recorded.
    + unfold getTotalSpent. simpl. now apply nothing_spent.
    + exact Halloc.
    + unfold balanced. simpl. now rewrite Halloc.
  - intros next Hlt Hnext Hst ->. unfold perform, handleCopyPlan.
    rewrite Nat.add_1_r.
    destruct (Nat.ltb_spec 11 (S (selectedMonthIndex s))); [lia |].
    rewrite Hnext. destruct (MonthBudget.status next); simpl; congruence.
Qed.

Lemma copied_month_is_fresh_witness :
  (exists new,
     monthAt 1 (perform plainToString sampleEnv (CopyPlan false) sampleState)
       = Some new /\
     getTotalSpent new = zero /\
     totalAllocated (MonthBudget.categories new) = ofZ 1600) /\
  perform plainToString sampleEnv (CopyPlan false)
    (mkState (BudgetYear.mk 2026 [january; january]) 0)
  = mkState (BudgetYear.mk 2026 [january; january]) 0.
Proof.
  split.
  - destruct (copied_month_is_fresh plainToString sampleEnv false sampleState)
      as [Hcopy _].
    destruct (handleCopyPlan sampleEnv false (yearData sampleState)
                (selectedMonthIndex sampleState)) as [| | | updated n] eqn:Hrun;
      try discriminate Hrun.
    destruct (Hcopy updated n eq_refl)
      as (cur & new & -> & Hcur & _ & Hnew & _ & Hspent & Halloc & _).
    exists new. unfold perform. rewrite Hrun. unfold monthAt. simpl.
    split; [exact Hnew |]. split; [exact Hspent |].
    rewrite Halloc. simpl in Hcur. now injection Hcur as <-.
  - destruct (copied_month_is_fresh plainToString sampleEnv false
                (mkState (BudgetYear.mk 2026 [january; january]) 0))
      as [_ Hdeclined].
    eapply Hdeclined; [simpl; lia | reflexivity | discriminate | reflexivity].
Defined.

(** ** The budget as the sum of the allocations *)










(** ** The progress bar *)

Lemma clamp_bounds v :
  v <> NaN ->
  isFinite (nmin (nmax v zero) hundred) = true /\
  nle zero (nmin (nmax v zero) hundred) = true /\
  nle (nmin (nmax v zero) hundred) hundred = true.
Proof.
  destruct v as [| | | x]; [congruence | intros _ .. ]; try (vm_compute; tauto).
  unfold nmax, hundred, ofZ, zero. cbn [ngt].
  destruct (Q2Qc 0 ?= x)%Qc eqn:E0; try (vm_compute; tauto);
    unfold nmin; cbn [ngt];
    (destruct (x ?= Q2Qc (inject_Z 100))%Qc eqn:E1;
     [ cbn [isFinite nle]; rewrite E0, E1; tauto
     | cbn [isFinite nle]; rewrite E0, E1; tauto
     | vm_compute; tauto ]).
Qed.

Lemma quotient_not_NaN a t :
  nle (Fin t) zero = false -> nmul (ndiv (Fin a) (Fin t)) hundred <> NaN.
Proof.
  cbn [nle zero ndiv]. destruct (t ?= Q2Qc 0)%Qc; discriminate.
Qed.

Lemma full_when_not_below p :
  isFinite p = true -> nle p hundred = true -> nge p hundred = true -> p = hundred.
Proof.
  destruct p as [| | | x]; try discriminate. intros _.
  unfold nge, hundred, ofZ. cbn [nle]. intros Hle Hge. f_equal. apply Qceq_alt.
  destruct (x ?= Q2Qc (inject_Z 100))%Qc eqn:E; [reflexivity | | discriminate].
  apply Qclt_alt in E. apply (Qcgt_alt (Q2Qc (inject_Z 100)) x) in E.
  rewrite E in Hge. discriminate.
Qed.

(** X17: the width of a progress bar is NaN or a finite number from 0 to 100;
    it is a number whenever the two figures it is drawn from are finite,
    it is 0 when the total is not above 0, and the bar is red only when it
    is full. *)
Theorem progress_bar_within_bounds current total :
  let p := fst (ProgressBar current total) in
  (p = NaN \/ (isFinite p = true /\ nle zero p = true /\ nle p hundred = true)) /\
  (isFinite current = true -> isFinite total = true -> p <> NaN) /\
  (nle total zero = true -> ProgressBar current total = (zero, "bg-[#FFA500]")) /\
  (snd (ProgressBar current total) = "bg-red-500" -> p = hundred).
Proof.
  unfold ProgressBar. cbn [fst snd]. unfold barPercentage.
  destruct (nle total zero) eqn:Ht.
  - split; [right; vm_compute; tauto |]. split; [discriminate |].
    split; [reflexivity |]. intros H. vm_compute in H. discriminate H.
  - set (v := nmul (ndiv current total) hundred).
    assert (Hcl : v <> NaN ->
              isFinite (nmin (nmax v zero) hundred) = true /\
              nle zero (nmin (nmax v zero) hundred) = true /\
              nle (nmin (nmax v zero) hundred) hundred = true)
      by apply clamp_bounds.
    split; [| split; [| split]].
    + destruct v eqn:Hv; [left; reflexivity | right; apply Hcl; discriminate ..].
    + intros Hc Hfin Hp. destruct current as [| | | a]; try discriminate.
      destruct total as [| | | t]; try discriminate.
      destruct (clamp_bounds v) as [Hf _]; [now apply quotient_not_NaN |].
      rewrite Hp in Hf. discriminate.
    + discriminate.
    + unfold barColor. set (p := nmin (nmax v zero) hundred) in *.
      destruct (nge p hundred) eqn:Hge;
        [intros _ | destruct (ngt p (ofZ 85)); discriminate].
      destruct v eqn:Hv; [subst p; discriminate Hge | | |];
        (destruct Hcl as (Hf & _ & Hle); [discriminate |]);
        now apply full_when_not_below.
Qed.

Lemma progress_bar_within_bounds_witness :
  snd (ProgressBar (ofZ 50) (ofZ 400)) = "bg-[#FFA500]" /\
  fst (ProgressBar (ofZ 50) (ofZ 400)) <> NaN /\
  ProgressBar (ofZ 50) zero = (zero, "bg-[#FFA500]") /\
  fst (ProgressBar (ofZ 500) (ofZ 400)) = hundred.
Proof.
  split; [reflexivity |]. split; [| split].
  - apply (progress_bar_within_bounds (ofZ 50) (ofZ 400)); reflexivity.
  - apply (progress_bar_within_bounds (ofZ 50) zero). reflexivity.
  - apply (progress_bar_within_bounds (ofZ 500) (ofZ 400)). reflexivity.
Defined.

(** ** The chart series *)

Lemma norElse_truthy x d : truthy d = true -> truthy (norElse x d) = true.
Proof. intros Hd. unfold norElse. now destruct (truthy x) eqn:E. Qed.

(** X18: the chart has one slice per envelope, in the order and under the names
    of the envelopes; the value of a slice is what is spent on the
    envelope when that is a number other than 0, and the placeholder
    0.0001 otherwise, so that no slice has the value 0 or NaN. *)
Theorem chart_slices_are_positive m :
  map fst (chartData m) = map Category.name (MonthBudget.categories m) /\
  Forall (fun slice => truthy (snd slice) = true) (chartData m) /\
  (forall k c, MonthBudget.categories m !! k = Some c ->
     chartData m !! k
     = Some (Category.name c,
             if truthy (getCategorySpent c) then getCategorySpent c
             else chartPlaceholder)).
Proof.
  unfold chartData. split; [| split].
  - rewrite map_map. reflexivity.
  - apply Forall_lookup. intros k slice Hk. rewrite lookup_map in Hk.
    destruct (MonthBudget.categories m !! k); [| discriminate].
    injection Hk as <-. simpl. now apply norElse_truthy.
  - intros k c Hc. now rewrite lookup_map, Hc.
Qed.

Lemma chart_slices_are_positive_witness :
  chartData january
  = [("Groceries", chartPlaceholder); ("Rent", chartPlaceholder)].
Proof.
  destruct (chart_slices_are_positive january) as (_ & _ & Hslice).
  apply list_eq. intros [| [| k]].
  - now rewrite (Hslice 0%nat groceries eq_refl).
  - now rewrite (Hslice 1%nat rent eq_refl).
  - reflexivity.
Defined.

(** ** The local snapshot store *)

Lemma integerToString_inj a b : integerToString a = integerToString b -> a = b.
Proof.
  unfold integerToString. intros H.
  assert (Hok : forall z, NilZero.int_of_string (NilZero.string_of_int (Z.to_int z))
                          = Some (Z.to_int z)).
  { intros z. apply NilZero.isi.
    - destruct z; simpl; try discriminate.
      intros E. injection E as E. now apply Unsigned.to_uint_nonnil in E.
    - destruct z; simpl; try discriminate.
      intros E. injection E as E. now apply Unsigned.to_uint_nonnil in E. }
  apply (f_equal NilZero.int_of_string) in H. rewrite !Hok in H.
  injection H as H. now apply to_int_inj.
Qed.

Lemma storageKey_inj a b : storageKey a = storageKey b -> a = b.
Proof.
  unfold storageKey, STORAGE_KEY. simpl. intros H.
  injection H as H. now apply integerToString_inj.
Qed.

(** X19: loading a year for which nothing is stored, or an empty text, or a text
    that does not parse, gives the default year: twelve months that are
    NOT_STARTED, at their places, with a budget of 0 and no envelope; a
    change of year to such a year keeps the selected month and leaves a
    well-formed state. *)
Theorem load_falls_back_to_default parse year localStorage s :
  localStorage !! storageKey year = None \/
  localStorage !! storageKey year = Some "" \/
  (exists stored, localStorage !! storageKey year = Some stored /\
                  parse stored = None) ->
  (selectedMonthIndex s <= 11)%nat ->
  loadLocalYearData parse year localStorage = defaultYearData year /\
  wellFormed year (handleYearChange parse year localStorage s) /\
  forall i, (i < 12)%nat ->
    monthAt i (handleYearChange parse year localStorage s)
    = Some (MonthBudget.mk (Z.of_nat i) year NOT_STARTED zero None []).
Proof.
  intros Hstore Hsel.
  assert (Hload : loadLocalYearData parse year localStorage = defaultYearData year).
  { unfold loadLocalYearData.
    destruct Hstore as [-> | [-> | (stored & -> & Hp)]]; try reflexivity.
    rewrite Hp. now destruct (isEmpty stored). }
  split; [exact Hload |]. unfold handleYearChange, monthAt. rewrite Hload.
  split; [now apply defaultYearData_wellFormed |].
  intros i Hi. simpl.
  do 12 (destruct i as [| i]; [reflexivity |]). lia.
Qed.

Lemma load_falls_back_to_default_witness :
  loadLocalYearData parseYearNumber 2027
    (saveLocalYearData stringifyYearNumber sampleYear ∅)
  = defaultYearData 2027 /\
  loadLocalYearData parseYearNumber 2026 {[ storageKey 2026 := "{oops" ]}
  = defaultYearData 2026.
Proof.
  split.
  - apply (load_falls_back_to_default parseYearNumber 2027 _ sampleState);
      [left; reflexivity | simpl; lia].
  - apply (load_falls_back_to_default parseYearNumber 2026 _ sampleState);
      [right; right; exists "{oops"; split; reflexivity | simpl; lia].
Defined.

(** X20: snapshots are kept by year: saving a year and loading the year of its
    number gives what [JSON.parse] makes of what [JSON.stringify] wrote,
    the saved year itself when the two round-trip on it, whatever was
    stored before; and saving a year leaves what loading any other year
    gives as it was. *)
Theorem snapshots_are_kept_by_year stringify parse data localStorage :
  (stringify data <> "" -> parse (stringify data) = Some data ->
   loadLocalYearData parse (BudgetYear.year data)
     (saveLocalYearData stringify data localStorage) = data) /\
  (forall year, year <> BudgetYear.year data ->
   loadLocalYearData parse year (saveLocalYearData stringify data localStorage)
   = loadLocalYearData parse year localStorage).
Proof.
  unfold loadLocalYearData, saveLocalYearData. split.
  - intros Hne Hrt. rewrite lookup_insert_eq, (isEmpty_false _ Hne), Hrt. reflexivity.
  - intros year Hy. rewrite lookup_insert_ne; [reflexivity |].
    intros E. apply Hy. symmetry. now apply storageKey_inj.
Qed.

Lemma snapshots_are_kept_by_year_witness :
  loadLocalYearData parseYearNumber 2026
    (saveLocalYearData stringifyYearNumber (defaultYearData 2026)
       (saveLocalYearData stringifyYearNumber (defaultYearData 2027) ∅))
  = defaultYearData 2026 /\
  loadLocalYearData parseYearNumber 2027
    (saveLocalYearData stringifyYearNumber (defaultYearData 2026)
       (saveLocalYearData stringifyYearNumber (defaultYearData 2027) ∅))
  = loadLocalYearData parseYearNumber 2027
      (saveLocalYearData stringifyYearNumber (defaultYearData 2027) ∅).
Proof.
  destruct (snapshots_are_kept_by_year stringifyYearNumber parseYearNumber
              (defaultYearData 2026)
              (saveLocalYearData stringifyYearNumber (defaultYearData 2027) ∅))
    as [Hsame Hother].
  split.
  - apply Hsame; [discriminate | reflexivity].
  - apply Hother. discriminate.
Defined.

(** ** The text of an insight *)

Lemma stripMarkup_clean s : noMarkup (stripMarkup s).
Proof.
  unfold noMarkup. induction s as [| c s IH]; simpl; [constructor |].
  destruct (isMarkup c) eqn:E; [exact IH |]. simpl. now constructor.
Qed.

Lemma stripMarkup_noop s : noMarkup s -> stripMarkup s = s.
Proof.
  unfold noMarkup. induction s as [| c s IH]; simpl; [reflexivity |].
  intros H. inversion H as [| ? ? Hc Hs]. rewrite Hc. f_equal. now apply IH.
Qed.

(** X21: whatever the generation returns, the insight handed to the report
    holds none of the characters * _ # ` ~; a response text that is not
    empty and holds none of them is handed over as it is, and a response
    without text, or with an empty one, gives the sentence that the
    analysis is unavailable. *)
Theorem insight_is_plain_text g :
  noMarkup (insightText g) /\
  (forall t, g = Responded (Some t) -> t <> "" -> noMarkup t -> insightText g = t) /\
  (g = Responded None \/ g = Responded (Some "") ->
   insightText g = "Financial analysis is currently unavailable.").
Proof.
  split; [| split].
  - destruct g as [text|]; simpl; [apply stripMarkup_clean |].
    unfold noMarkup. apply List.Forall_forall. intros c Hc. simpl in Hc.
    repeat (destruct Hc as [<- | Hc]; [reflexivity |]). contradiction.
  - intros t -> Ht Hclean. simpl. unfold sorElse.
    rewrite (isEmpty_false _ Ht). now apply stripMarkup_noop.
  - intros [-> | ->]; reflexivity.
Qed.

Lemma insight_is_plain_text_witness :
  insightText (Responded (Some "Spending is **on track** in #Rent."))
    = "Spending is on track in Rent." /\
  insightText (Responded (Some "Spending is on track."))
    = "Spending is on track." /\
  insightText (Responded None) = "Financial analysis is currently unavailable.".
Proof.
  split; [reflexivity |]. split.
  - apply (insight_is_plain_text (Responded (Some "Spending is on track.")));
      [reflexivity | discriminate | repeat constructor].
  - apply (insight_is_plain_text (Responded None)). now left.
Defined.
